(** * TokenTracker: the aggregation pipeline of [tracker.ts]

    A shallow embedding of [convertToDecimal], [getTokenDetails] and [main]
    and of the parts of their runtime they rely on: JavaScript numbers
    (IEEE 754 binary64), JSON values with property access and truthiness,
    the decimal arithmetic of bignumber.js, and the ledger and HTTP calls,
    which are answered by an explicit [World] and recorded in a trace.
    Console output is left out.  Line numbers are those of the complete
    version of the script. *)

From Stdlib Require Import ZArith NArith PArith QArith Qpower List String Ascii Bool Lia.
From Stdlib Require Import DecimalString DecimalN DecimalPos.
From Stdlib Require Import Floats.SpecFloat.
Import ListNotations.

Local Open Scope string_scope.

(** ** JavaScript numbers *)

Module JSNumber.

(** A JS [number] is a binary64 float: 53 bits of precision, infinities at
    exponent 1024.  Finite values are kept in canonical form
    ([valid_binary]), as the runtime does. *)
Definition number : Type := spec_float.

Definition prec : Z := 53.
Definition emax : Z := 1024.

(** [Number.MAX_SAFE_INTEGER], 2^53 - 1. *)
Definition MAX_SAFE_INTEGER : Z := 9007199254740991.

Definition valid (x : number) : bool := valid_binary prec emax x.

(** [ToBoolean] on a number: [+0], [-0] and [NaN] are falsy. *)
Definition falsy (x : number) : bool :=
  match x with
  | S754_zero _ | S754_nan => true
  | _ => false
  end.

(** The number nearest to an integer (ties to even). *)
Definition ofZ (z : Z) : number := binary_normalize prec emax z 0 false.

(** The number nearest to the ratio [p / q] (ties to even). *)
Definition ofRatio (neg : bool) (p q : positive) : number :=
  let '(mz, ez, lz) := SFdiv_core_binary prec emax (Zpos p) 0 (Zpos q) 0 in
  binary_round_aux prec emax neg mz ez lz.

(** The exact value of a finite number. *)
Definition toQ (x : number) : option Q :=
  match x with
  | S754_zero _ => Some 0%Q
  | S754_finite s m e =>
      Some (inject_Z (cond_Zopp s (Zpos m)) * Qpower 2 e)%Q
  | _ => None
  end.

Definition eqb (x y : number) : bool :=
  match x, y with
  | S754_zero a, S754_zero b => Bool.eqb a b
  | S754_infinity a, S754_infinity b => Bool.eqb a b
  | S754_nan, S754_nan => true
  | S754_finite a m e, S754_finite b m' e' =>
      Bool.eqb a b && Pos.eqb m m' && Z.eqb e e'
  | _, _ => false
  end.

End JSNumber.
Export JSNumber (number).

(** ** Decimal digits *)

Module Digits.

(** Decimal digits of a natural number, ["0"] for zero. *)
Definition ofN (n : N) : string := NilZero.string_of_uint (N.to_uint n).

(** [BigInt.prototype.toString()]: a minus sign, then the digits. *)
Definition bigint_toString (z : Z) : string :=
  match z with
  | Zneg p => String "-" (ofN (Npos p))
  | _ => ofN (Z.to_N z)
  end.

(** A non-empty run of decimal digits, read as a natural number. *)
Definition toN (s : string) : option N :=
  option_map N.of_uint (NilZero.uint_of_string s).

Definition count (p : positive) : Z :=
  Z.of_nat (Decimal.nb_digits (Pos.to_uint p)).

Fixpoint zeros (k : nat) : string :=
  match k with
  | O => ""
  | S k' => String "0" (zeros k')
  end.

(** [s] left-padded with zeros to [k] characters. *)
Definition pad_left (k : nat) (s : string) : string :=
  zeros (k - String.length s) ++ s.

Fixpoint rev_string (s : string) : string :=
  match s with
  | "" => ""
  | String a t => rev_string t ++ String a ""
  end.

Fixpoint drop_leading_zeros (s : string) : string :=
  match s with
  | String "0" t => drop_leading_zeros t
  | _ => s
  end.

Definition drop_trailing_zeros (s : string) : string :=
  rev_string (drop_leading_zeros (rev_string s)).

(** The number of decimal digits of [c], 0 for zero. *)
Fixpoint ndigits_fuel (fuel : nat) (c : N) : Z :=
  match fuel with
  | O => 0
  | S f => if (c <? 10)%N then 1 else 1 + ndigits_fuel f (c / 10)%N
  end.

Definition ndigits (c : N) : Z := ndigits_fuel (N.to_nat (N.size c)) c.

End Digits.

(** ** bignumber.js

    [BigNumber] values are decimal: a sign, a coefficient and a power of
    ten, or [NaN], or an infinity.  Sums and products of the library are
    exact as long as the result stays within the library's exponent range;
    beyond it a number becomes a zero or an infinity.  The range is the
    library's default, and its [DEBUG] mode is off. *)

Module BigNumber.

Inductive t : Type :=
| NaN
| Infinity (neg : bool)
| Finite (neg : bool) (c : N) (e : Z).

(** The library stores a coefficient without trailing zeros. *)
Fixpoint strip (fuel : nat) (c : N) (e : Z) : N * Z :=
  match fuel with
  | O => (c, e)
  | S k =>
      if (c mod 10 =? 0)%N then strip k (c / 10)%N (e + 1)%Z else (c, e)
  end.

Definition normal (neg : bool) (c : N) (e : Z) : t :=
  match c with
  | N0 => Finite neg 0 0
  | Npos _ =>
      let '(c', e') := strip (N.to_nat (N.size c)) c e in Finite neg c' e'
  end.

(** The default [RANGE]: the exponent of the leading digit stays between
    [MIN_EXP] and [MAX_EXP]. *)
Definition MAX_EXP : Z := 10000000.
Definition MIN_EXP : Z := -10000000.

(** The exponent of the leading digit of [c * 10^e]. *)
Definition leading (c : N) (e : Z) : Z := e + Digits.ndigits c - 1.

(** Above the range a number overflows to an infinity, below it underflows
    to a zero of its sign. *)
Definition clamp (x : t) : t :=
  match x with
  | Finite neg (Npos p) e =>
      if (MAX_EXP <? leading (Npos p) e)%Z then Infinity neg
      else if (leading (Npos p) e <? MIN_EXP)%Z then Finite neg 0 0
      else x
  | _ => x
  end.

(** What the constructor and the arithmetic return for
    [(-1)^neg * c * 10^e]. *)
Definition make (neg : bool) (c : N) (e : Z) : t := clamp (normal neg c e).

(** [new BigNumber(str)] on an integer literal: an optional minus sign and
    decimal digits.  [None] on any other string. *)
Definition ofIntegerLiteral (s : string) : option t :=
  match s with
  | String a r =>
      if Ascii.eqb a "-"
      then option_map (fun n => make true n 0) (Digits.toN r)
      else option_map (fun n => make false n 0) (Digits.toN s)
  | "" => None
  end.

(** The rational [(-1)^neg * c * 10^e]. *)
Definition rational (neg : bool) (c : N) (e : Z) : Q :=
  (inject_Z (cond_Zopp neg (Z.of_N c)) * Qpower 10 e)%Q.

(** The exact value of a finite [BigNumber]. *)
Definition value (x : t) : option Q :=
  match x with
  | Finite neg c e => Some (rational neg c e)
  | _ => None
  end.

(** [x.times(y)]: exact within the range. *)
Definition times (x y : t) : t :=
  match x, y with
  | NaN, _ | _, NaN => NaN
  | Infinity a, Infinity b => Infinity (xorb a b)
  | Infinity a, Finite b c _ | Finite b c _, Infinity a =>
      match c with N0 => NaN | _ => Infinity (xorb a b) end
  | Finite a c e, Finite b c' e' => make (xorb a b) (c * c')%N (e + e')%Z
  end.

(** [x.shiftedBy(k)] is [x.times('1e' + k)], for an integer [k] between
    [-MAX_SAFE_INTEGER] and [MAX_SAFE_INTEGER] (the library throws on any
    other argument). *)
Definition shiftedBy (x : t) (k : Z) : t := times x (make false 1 k).

(** [x.toNumber()]: the JS number nearest to [x]. *)
Definition toNumber (x : t) : number :=
  match x with
  | NaN => S754_nan
  | Infinity neg => S754_infinity neg
  | Finite neg N0 _ => S754_zero neg
  | Finite neg (Npos p) e =>
      if (0 <=? e)%Z
      then binary_round JSNumber.prec JSNumber.emax neg
             (p * Z.to_pos (10 ^ e)) 0
      else JSNumber.ofRatio neg p (Z.to_pos (10 ^ (- e)))
  end.

(** *** Reading a JS number

    The constructor reads a number through [String(v)]: the shortest
    decimal that converts back to [v], the closest one to [v] when several
    have that length.  For a binary64 value that decimal has at most 17
    digits and a leading exponent between -324 and 308, far inside the
    range. *)

(** The leading exponent of a binary64 value lies within this bound. *)
Definition NUMBER_EXP : Z := 400.

(** [c * 10^e] as read from a JS number.  A [spec_float] whose decimal
    falls outside [NUMBER_EXP] is no binary64 value; it reads as zero, only
    to keep the function total. *)
Definition ofDigits (neg : bool) (c : N) (e : Z) : t :=
  match normal neg c e with
  | Finite n (Npos p) e' =>
      if ((- NUMBER_EXP <=? leading (Npos p) e')
          && (leading (Npos p) e' <=? NUMBER_EXP))%Z
      then Finite n (Npos p) e'
      else Finite n 0 0
  | x => x
  end.

(** [num / den / 10^x] as a ratio of integers. *)
Definition scaled (num den : positive) (x : Z) : Z * Z :=
  if (0 <=? x)%Z
  then (Zpos num, Zpos den * 10 ^ x)%Z
  else (Zpos num * 10 ^ (- x), Zpos den)%Z.

(** The two multiples of [10^x] around [num / den], the nearer first. *)
Definition candidates (num den : positive) (x : Z) : list N :=
  let '(a, b) := scaled num den x in
  let lo := (a / b)%Z in
  let hi := (lo + 1)%Z in
  let nearer_lo :=
    match (2 * (a mod b) ?= b)%Z with
    | Lt => true
    | Gt => false
    | Eq => Z.even lo
    end in
  map Z.to_N (if nearer_lo then [lo; hi] else [hi; lo]).

Definition roundtrips (v : number) (x : Z) (s : N) : bool :=
  JSNumber.eqb (toNumber (Finite false s x)) v.

Fixpoint shortest (fuel : nat) (k n : Z) (num den : positive) (v : number)
  : option (N * Z) :=
  match fuel with
  | O => None
  | S f =>
      match find (roundtrips v (n - k)) (candidates num den (n - k)) with
      | Some s => Some (s, (n - k)%Z)
      | None => shortest f (k + 1) n num den v
      end
  end.

(** [n] with [10^(n-1) <= num / den < 10^n]. *)
Definition magnitude (num den : positive) : Z :=
  let n0 := (Digits.count num - Digits.count den)%Z in
  let '(a, b) := scaled num den n0 in
  if (a <? b)%Z then n0 else (n0 + 1)%Z.

Definition ofNumber (v : number) : t :=
  match v with
  | S754_nan => NaN
  | S754_infinity neg => Infinity neg
  | S754_zero neg => Finite neg 0 0
  | S754_finite neg m e =>
      let '(num, den) :=
        if (0 <=? e)%Z then ((m * Z.to_pos (2 ^ e))%positive, 1%positive)
        else (m, Z.to_pos (2 ^ (- e))) in
      match shortest 17 1 (magnitude num den) num den
              (S754_finite false m e) with
      | Some (c, x) => ofDigits neg c x
      | None =>
          (* not reached on a canonical number: its exact expansion *)
          if (0 <=? e)%Z then ofDigits neg (Npos num) 0
          else ofDigits neg (Npos m * 5 ^ Z.to_N (- e)) e
      end
  end.

(** *** Printing *)

(** Integer digits and fraction digits of [c * 10^e] in normal notation. *)
Definition parts (c : N) (e : Z) : string * string :=
  match c with
  | N0 => ("0", "")
  | Npos _ =>
      if (0 <=? e)%Z
      then (Digits.ofN c ++ Digits.zeros (Z.to_nat e), "")
      else
        let k := Z.to_nat (- e) in
        let p := (10 ^ N.of_nat k)%N in
        (Digits.ofN (c / p),
         if (c mod p =? 0)%N then ""
         else Digits.drop_trailing_zeros
                (Digits.pad_left k (Digits.ofN (c mod p))))
  end.

Definition sign_of (neg : bool) (c : N) : string :=
  match c with
  | N0 => ""
  | Npos _ => if neg then "-" else ""
  end.

Definition with_fraction (int frac : string) : string :=
  match frac with
  | "" => int
  | _ => int ++ "." ++ frac
  end.

(** [x.toFixed()] without arguments: normal notation, no rounding. *)
Definition toFixed (x : t) : string :=
  match x with
  | NaN => "NaN"
  | Infinity neg => if neg then "-Infinity" else "Infinity"
  | Finite neg c e =>
      let '(int, frac) := parts c e in
      sign_of neg c ++ with_fraction int frac
  end.

(** The grouping loop of [toFormat]:
    [for (; i < len; i += g1) intPart += groupSeparator + intDigits.substr(i, g1)]. *)
Fixpoint group_from (fuel i : nat) (digits acc : string) : string :=
  match fuel with
  | O => acc
  | S f =>
      if (i <? String.length digits)%nat
      then group_from f (i + 3) digits (acc ++ "," ++ substring i 3 digits)
      else acc
  end.

Definition group (digits : string) : string :=
  let len := String.length digits in
  match len with
  | O => digits
  | _ =>
      let i := match (len mod 3)%nat with O => 3%nat | r => r end in
      group_from len i digits (substring 0 i digits)
  end.

(** [x.toFormat()] with the default [FORMAT]: groups of three separated by
    commas, a decimal point, the fraction left as it is. *)
Definition toFormat (x : t) : string :=
  match x with
  | Finite neg c e =>
      let '(int, frac) := parts c e in
      sign_of neg c ++ with_fraction (group int) frac
  | _ => toFixed x
  end.

End BigNumber.

(** ** JSON values as the program sees them

    What [response.data] can hold: a parsed JSON document, or the raw text
    when the body does not parse.  An object may hold any key, also those
    the runtime itself reads when it converts an object ([toString],
    [valueOf]): what a conversion makes of them is left to [coerce], in the
    program below. *)

#[local] Set Warnings "-register-all".

Inductive JSValue : Type :=
| JUndefined
| JNull
| JBool (b : bool)
| JNumber (n : number)
| JString (s : string)
| JArray (items : list JSValue)
| JObject (fields : list (string * JSValue)).

Module JS.

(** [ToBoolean]. *)
Definition truthy (v : JSValue) : bool :=
  match v with
  | JUndefined | JNull => false
  | JBool b => b
  | JNumber n => negb (JSNumber.falsy n)
  | JString s => negb (s =? "")
  | JArray _ | JObject _ => true
  end.

(** [a || b]. *)
Definition or (a b : JSValue) : JSValue := if truthy a then a else b.

(** [v !== undefined]. *)
Definition defined (v : JSValue) : bool :=
  match v with
  | JUndefined => false
  | _ => true
  end.

Fixpoint lookup (k : string) (fields : list (string * JSValue)) : JSValue :=
  match fields with
  | [] => JUndefined
  | (k', v) :: rest => if k' =? k then v else lookup k rest
  end.

(** The property [k] of a value that is neither [undefined] nor [null].
    The program reads [image], [name], [symbol], [data], [value],
    [liquidity], [holders] and [volume24h] only: none of them is a
    property of a primitive or of an array. *)
Definition prop (v : JSValue) (k : string) : JSValue :=
  match v with
  | JObject fields => lookup k fields
  | _ => JUndefined
  end.

Definition nullish (v : JSValue) : bool :=
  match v with
  | JUndefined | JNull => true
  | _ => false
  end.

(** [v?.k]. *)
Definition get_opt (v : JSValue) (k : string) : JSValue :=
  if nullish v then JUndefined else prop v k.

End JS.

(** ** The outside world *)

(** What a rejected promise or a failed constructor throws. *)
Record Error : Type := { message : string }.

Definition TypeError : Error :=
  {| message := "Cannot read properties of undefined" |}.

(** The mint account as [getMint] decodes it: the supply is an unsigned
    64-bit integer and the decimals are one byte of the account data; the
    authorities are given in base58.  The two numbers are read modulo
    their width, so that every [MintInfo] is one the layout can hold. *)
Record MintInfo : Type := {
  mint_decimals_u8 : N;
  mint_supply_u64 : N;
  mint_mintAuthority : option string;
  mint_freezeAuthority : option string
}.

(** [mintInfo.decimals], a number between 0 and 255. *)
Definition mint_decimals (mintInfo : MintInfo) : Z :=
  Z.of_N (mint_decimals_u8 mintInfo mod 256).

(** [mintInfo.supply], a [bigint] below 2^64. *)
Definition supply (mintInfo : MintInfo) : Z :=
  Z.of_N (mint_supply_u64 mintInfo mod 2 ^ 64).

(** The on-chain metadata record as [findByMint] returns it. *)
Record Nft : Type := {
  nft_name : string;
  nft_symbol : string;
  nft_uri : string
}.

Definition Headers : Type := list (string * string).

Inductive NetCall : Type :=
| RpcGetMint (address : string)
| RpcFindByMint (address : string)
| HttpGet (url : string) (headers : option Headers).

(** The answers of one run.  [axios_get] gives [response.data]. *)
Record World : Type := {
  validPublicKey : string -> bool;
  rpc_getMint : string -> Error + MintInfo;
  metaplex_findByMint : string -> Error + Nft;
  axios_get : string -> option Headers -> Error + JSValue
}.

(** ** Control: local variables, the trace of network calls, exceptions *)

Module Var.

(** The [let] variables of [getTokenDetails]. *)
Inductive t : Type :=
| tokenName | tokenSymbol | tokenImageURL
| price | marketCap | liquidityUsd | holders | volume24h.

Definition eqb (a b : t) : bool :=
  match a, b with
  | tokenName, tokenName | tokenSymbol, tokenSymbol
  | tokenImageURL, tokenImageURL | price, price | marketCap, marketCap
  | liquidityUsd, liquidityUsd | holders, holders
  | volume24h, volume24h => true
  | _, _ => false
  end.

End Var.

Record State : Type := {
  store : Var.t -> JSValue;
  trace : list NetCall
}.

Definition initial : State :=
  {| store := fun _ => JUndefined; trace := [] |}.

Inductive Completion (A : Type) : Type :=
| Normal (a : A)
| Throw (e : Error).
Arguments Normal {A} a.
Arguments Throw {A} e.

Definition M (A : Type) : Type := State -> Completion A * State.

Definition ret {A} (a : A) : M A := fun s => (Normal a, s).

Definition bind {A B} (m : M A) (k : A -> M B) : M B :=
  fun s =>
    match m s with
    | (Normal a, s') => k a s'
    | (Throw e, s') => (Throw e, s')
    end.

Notation "x <- m ;; k" := (bind m (fun x => k))
  (at level 61, m at next level, right associativity).
Notation "m ;;; k" := (bind m (fun _ => k))
  (at level 61, right associativity).

Definition throw {A} (e : Error) : M A := fun s => (Throw e, s).

(** [try { m } catch (e) { h e }]: assignments and calls made before the
    throw stay made. *)
Definition try_catch {A} (m : M A) (h : Error -> M A) : M A :=
  fun s =>
    match m s with
    | (Throw e, s') => h e s'
    | r => r
    end.

Definition assign (x : Var.t) (v : JSValue) : M unit :=
  fun s =>
    (Normal tt,
     {| store := fun y => if Var.eqb x y then v else store s y;
        trace := trace s |}).

Definition read (x : Var.t) : M JSValue := fun s => (Normal (store s x), s).

(** The variables in scope, for building an object literal from them. *)
Definition scope : M State := fun s => (Normal s, s).

(** An awaited network call: recorded, then answered by the world. *)
Definition await {A} (c : NetCall) (answer : Error + A) : M A :=
  fun s =>
    let s' := {| store := store s; trace := trace s ++ [c] |} in
    match answer with
    | inl e => (Throw e, s')
    | inr a => (Normal a, s')
    end.

(** [v.k]: a [TypeError] on [undefined] and [null]. *)
Definition get (v : JSValue) (k : string) : M JSValue :=
  if JS.nullish v then throw TypeError else ret (JS.prop v k).

Definition when (b : bool) (m : M unit) : M unit := if b then m else ret tt.

(** A synchronous call that returns or throws. *)
Definition completed {A} (answer : Error + A) : M A :=
  fun s =>
    match answer with
    | inl e => (Throw e, s)
    | inr a => (Normal a, s)
    end.

(** ** The program *)

Section Tracker.

(** bignumber.js reads an argument that is neither a JS number nor an
    integer literal through [String(v)] and its own numeric grammar.  That
    reading is left open: [coerce] is any function.  It may throw: the
    conversion to a string does on an object whose own [toString] and
    [valueOf] are not functions, and recent versions of the library reject
    every argument that is not a number, a string or a [bigint]. *)
Variable coerce : JSValue -> Error + BigNumber.t.

(** [new BigNumber(v)]. *)
Definition new_BigNumber (v : JSValue) : Error + BigNumber.t :=
  match v with
  | JNumber n => inr (BigNumber.ofNumber n)
  | JString s =>
      match BigNumber.ofIntegerLiteral s with
      | Some x => inr x
      | None => coerce v
      end
  | _ => coerce v
  end.

(** [x.multipliedBy(v)]. *)
Definition multipliedBy (x : BigNumber.t) (v : JSValue)
  : Error + BigNumber.t :=
  match new_BigNumber v with
  | inr y => inr (BigNumber.times x y)
  | inl e => inl e
  end.

(** [new BigNumber(amount.toString())] for a [bigint]: its string is an
    integer literal, which the constructor reads by itself and without
    throwing; the other branch is never taken. *)
Definition BigNumber_of_bigint (amount : Z) : BigNumber.t :=
  match BigNumber.ofIntegerLiteral (Digits.bigint_toString amount) with
  | Some x => x
  | None => BigNumber.NaN
  end.

(** [function convertToDecimal(amount, decimals)], on a [bigint] amount:
    [new BigNumber(amount.toString()).shiftedBy(-decimals)]. *)
Definition convertToDecimal (amount : Z) (decimals : Z) : BigNumber.t :=
  BigNumber.shiftedBy (BigNumber_of_bigint amount) (- decimals).

Record TokenDetails : Type := {
  address : string;
  name : JSValue;
  symbol : JSValue;
  imageURL : JSValue;
  decimals : Z;
  totalSupply : string;
  totalSupplyRaw : Z;
  mintAuthority : option string;
  freezeAuthority : option string;
  price : JSValue;
  marketcCap : JSValue;
  liquidityUsd : JSValue;
  holders : JSValue;
  volume24h : JSValue
}.

Variable w : World.

(** [new PublicKey(s)]: no network, throws on a malformed address. *)
Definition new_PublicKey (s : string) : M unit :=
  if validPublicKey w s then ret tt
  else throw {| message := "Invalid public key input" |}.

(** [authority?.toBase58() || null]. *)
Definition base58_or_null (authority : option string) : option string :=
  match authority with
  | Some s => if s =? "" then None else Some s
  | None => None
  end.

(** Lines 59-92: on-chain metadata, then the JSON it points to. *)
Definition metadataStage (mintAddress : string) : M unit :=
  assign Var.tokenName JUndefined ;;;
  assign Var.tokenSymbol JUndefined ;;;
  assign Var.tokenImageURL JUndefined ;;;
  try_catch
    (nftOrToken <- await (RpcFindByMint mintAddress)
                     (metaplex_findByMint w mintAddress) ;;
     assign Var.tokenName (JString (nft_name nftOrToken)) ;;;
     assign Var.tokenSymbol (JString (nft_symbol nftOrToken)) ;;;
     let metadataUri := nft_uri nftOrToken in
     when (JS.truthy (JString metadataUri))
       (try_catch
          (data <- await (HttpGet metadataUri None)
                     (axios_get w metadataUri None) ;;
           image <- get data "image" ;;
           assign Var.tokenImageURL image ;;;
           (tokenName <- read Var.tokenName ;;
            if negb (JS.truthy tokenName) then
              json_name <- get data "name" ;;
              when (JS.truthy json_name)
                (v <- get data "name" ;; assign Var.tokenName v)
            else ret tt) ;;;
           (tokenSymbol <- read Var.tokenSymbol ;;
            if negb (JS.truthy tokenSymbol) then
              json_symbol <- get data "symbol" ;;
              when (JS.truthy json_symbol)
                (v <- get data "symbol" ;; assign Var.tokenSymbol v)
            else ret tt))
          (fun jsonError => ret tt)))
    (fun metaError => ret tt).

Definition HEADERS : Headers := [("X-API-Key", "YOUR_BRIDEYE_API")].

Definition API_ENDPOINT (mintAddress : string) : string :=
  "https://public-api.birdeye.so/defi/price?address=" ++ mintAddress.

Definition OVERVIEW_ENDPOINT (mintAddress : string) : string :=
  "https://public-api.birdeye.so/defi/token_overview?address=" ++ mintAddress.

(** Lines 101-152: price, market cap, overview.  When line 129 throws,
    the catch of line 148 ends the stage: the market cap stays undefined and
    the overview is not asked.  (The template literals of lines 119 and 143
    can throw on the same kind of value; each comes after the assignments
    of its own [try] block, whose [catch] then leaves the variables as they
    are.) *)
Definition marketStage (mintAddress : string) (totalSupplyRaw decimals : Z)
  : M unit :=
  assign Var.price JUndefined ;;;
  assign Var.marketCap JUndefined ;;;
  assign Var.liquidityUsd JUndefined ;;;
  assign Var.holders JUndefined ;;;
  assign Var.volume24h JUndefined ;;;
  try_catch
    (try_catch
       (data <- await (HttpGet (API_ENDPOINT mintAddress) (Some HEADERS))
                  (axios_get w (API_ENDPOINT mintAddress) (Some HEADERS)) ;;
        if JS.truthy (JS.get_opt (JS.get_opt data "data") "value") then
          inner <- get data "data" ;;
          v <- get inner "value" ;;
          assign Var.price v
        else ret tt)
       (fun priceApiError => ret tt) ;;;
     (price <- read Var.price ;;
      when (JS.defined price)
        (product <- completed
                      (multipliedBy
                         (convertToDecimal totalSupplyRaw decimals) price) ;;
         assign Var.marketCap (JNumber (BigNumber.toNumber product)))) ;;;
     try_catch
       (data <- await (HttpGet (OVERVIEW_ENDPOINT mintAddress) (Some HEADERS))
                  (axios_get w (OVERVIEW_ENDPOINT mintAddress)
                     (Some HEADERS)) ;;
        assign Var.liquidityUsd
          (JS.get_opt (JS.get_opt data "data") "liquidity") ;;;
        assign Var.holders (JS.get_opt (JS.get_opt data "data") "holders") ;;;
        assign Var.volume24h
          (JS.get_opt (JS.get_opt data "data") "volume24h"))
       (fun overviewApiError => ret tt))
    (fun apiError => ret tt).

(** Lines 155-170: the result object. *)
Definition result_of (mintAddress : string) (mintInfo : MintInfo)
    (totalSupplyFormatted : string) (s : State) : TokenDetails :=
  {| address := mintAddress;
     name := JS.or (store s Var.tokenName) (JString "N?A");
     symbol := JS.or (store s Var.tokenSymbol) (JString "N/A");
     imageURL := store s Var.tokenImageURL;
     decimals := mint_decimals mintInfo;
     totalSupply := totalSupplyFormatted;
     totalSupplyRaw := supply mintInfo;
     mintAuthority := base58_or_null (mint_mintAuthority mintInfo);
     freezeAuthority := base58_or_null (mint_freezeAuthority mintInfo);
     price := store s Var.price;
     marketcCap := store s Var.marketCap;
     liquidityUsd := store s Var.liquidityUsd;
     holders := store s Var.holders;
     volume24h := store s Var.volume24h |}.

(** [async function getTokenDetails(mintAddress)]; [None] is [null]. *)
Definition getTokenDetails (mintAddress : string) : M (option TokenDetails) :=
  try_catch
    (new_PublicKey mintAddress ;;;
     mintInfo <- await (RpcGetMint mintAddress) (rpc_getMint w mintAddress) ;;
     let decimals := mint_decimals mintInfo in
     let totalSupplyRaw := supply mintInfo in
     let totalSupplyFormatted :=
       BigNumber.toFormat (convertToDecimal totalSupplyRaw decimals) in
     metadataStage mintAddress ;;;
     marketStage mintAddress totalSupplyRaw decimals ;;;
     vars <- scope ;;
     ret (Some (result_of mintAddress mintInfo totalSupplyFormatted vars)))
    (fun error => ret None).

(** What [main] leaves behind: the exit code of [process.exit], the
    printed report, or the "No details found" line. *)
Inductive Outcome : Type :=
| Exit (code : Z)
| Report (details : TokenDetails)
| NoDetails.

(** [async function main()], on [process.argv[2]]. *)
Definition main (argv2 : option string) : M Outcome :=
  match argv2 with
  | None => ret (Exit 1)
  | Some tokenAddress =>
      if negb (JS.truthy (JString tokenAddress)) then ret (Exit 1)
      else
        valid <- try_catch (new_PublicKey tokenAddress ;;; ret true)
                   (fun _ => ret false) ;;
        if valid then
          tokenDetails <- getTokenDetails tokenAddress ;;
          match tokenDetails with
          | Some details => ret (Report details)
          | None => ret NoDetails
          end
        else ret (Exit 1)
  end.

(** A run from the initial state. *)
Definition run {A} (m : M A) : Completion A * State := m initial.

End Tracker.

(** ** Vocabulary of the properties *)

(** A field of the result that was never assigned. *)
Definition unset (v : JSValue) : Prop := v = JUndefined.

(** A field that holds no text at all. *)
Definition empty (v : JSValue) : Prop := v = JUndefined \/ v = JString "".

(** The fetch of the JSON document gave nothing usable: it failed, or the
    body is not a JSON object. *)
Definition json_unusable (answer : Error + JSValue) : bool :=
  match answer with
  | inl _ => true
  | inr (JObject _) => false
  | inr _ => true
  end.

(** The value the price endpoint reported: [data?.data?.value]. *)
Definition reported_price (answer : Error + JSValue) : JSValue :=
  match answer with
  | inr data => JS.get_opt (JS.get_opt data "data") "value"
  | inl _ => JUndefined
  end.

(** The state in which [getMint] has just answered. *)
Definition after_mint (a : string) : State :=
  {| store := store initial; trace := trace initial ++ [RpcGetMint a] |}.

(** The world [w] with another answer from the price endpoint for [a]. *)
Definition with_price_answer (w : World) (a : string)
    (answer : Error + JSValue) : World :=
  {| validPublicKey := validPublicKey w;
     rpc_getMint := rpc_getMint w;
     metaplex_findByMint := metaplex_findByMint w;
     axios_get := fun url headers =>
       match headers with
       | Some _ =>
           if url =? API_ENDPOINT a then answer else axios_get w url headers
       | None => axios_get w url headers
       end |}.

(** ** Concrete runs *)

Module Sample.

(** The constructor on what the runs below leave to it.  An object with an
    own [toString] property cannot be converted to a string: the
    constructor throws.  No other value reaches it in these runs; it reads
    them as [NaN]. *)
Definition unprintable (v : JSValue) : bool :=
  match v with
  | JObject fields => JS.defined (JS.lookup "toString" fields)
  | _ => false
  end.

Definition coerce : JSValue -> Error + BigNumber.t :=
  fun v =>
    if unprintable v
    then inl {| message := "Cannot convert object to primitive value" |}
    else inr BigNumber.NaN.

(** The JS number written [c]e[e] in decimal. *)
Definition num (c : N) (e : Z) : JSValue :=
  JNumber (BigNumber.toNumber (BigNumber.make false c e)).

Definition address : string := "So11111111111111111111111111111111111111112".

Definition down : Error := {| message := "Network Error" |}.

Definition mint (decimals supply : Z) : MintInfo :=
  {| mint_decimals_u8 := Z.to_N decimals;
     mint_supply_u64 := Z.to_N supply;
     mint_mintAuthority := Some "9xQeWvG816bUx9EPjHmaT23yvVM2ZWbrrpZb9PusVFin";
     mint_freezeAuthority := None |}.

Definition nft : Nft :=
  {| nft_name := "Wrapped SOL";
     nft_symbol := "SOL";
     nft_uri := "https://example.org/sol.json" |}.

Definition document : JSValue :=
  JObject [("name", JString "Off-chain SOL");
           ("symbol", JString "XSOL");
           ("image", JString "https://example.org/sol.png")].

Definition price_body (value : JSValue) : JSValue :=
  JObject [("data", JObject [("value", value)]);
           ("success", JBool true)].

Definition overview_body : JSValue :=
  JObject [("data", JObject [("liquidity", num 125 4);
                             ("holders", num 4321 0)])].

(** A world given by the four answers that matter. *)
Definition world (mintAnswer : Error + MintInfo) (metaAnswer : Error + Nft)
    (jsonAnswer priceAnswer : Error + JSValue) : World :=
  {| validPublicKey := fun s => (String.length s =? 43)%nat;
     rpc_getMint := fun _ => mintAnswer;
     metaplex_findByMint := fun _ => metaAnswer;
     axios_get := fun url headers =>
       match headers with
       | None => jsonAnswer
       | Some _ =>
           if url =? API_ENDPOINT address then priceAnswer
           else inr overview_body
       end |}.

Definition healthy : World :=
  world (inr (mint 6 1000000000000)) (inr nft) (inr document)
    (inr (price_body (num 25 (-1)))).

Definition mint_down : World :=
  world (inl down) (inr nft) (inr document) (inr (price_body (num 25 (-1)))).

Definition no_metadata : World :=
  world (inr (mint 6 1000000000000)) (inl down) (inr document)
    (inr (price_body (num 25 (-1)))).

Definition json_down : World :=
  world (inr (mint 6 1000000000000)) (inr nft) (inl down)
    (inr (price_body (num 25 (-1)))).

Definition zero_price : World :=
  world (inr (mint 6 1000000000000)) (inr nft) (inr document)
    (inr (price_body (num 0 0))).

(** The on-chain record names nothing; the document does. *)
Definition blank_onchain : World :=
  world (inr (mint 6 1000000000000))
    (inr {| nft_name := ""; nft_symbol := ""; nft_uri := nft_uri nft |})
    (inr document) (inr (price_body (num 25 (-1)))).

(** The pointer leads to a page that is not JSON. *)
Definition json_garbled : World :=
  world (inr (mint 6 1000000000000)) (inr nft)
    (inr (JString "<html>Not Found</html>")) (inr (price_body (num 25 (-1)))).

(** Neither the on-chain record nor the document names anything: the
    record is blank and the GET of the document fails. *)
Definition blank_json_down : World :=
  world (inr (mint 6 1000000000000))
    (inr {| nft_name := ""; nft_symbol := ""; nft_uri := nft_uri nft |})
    (inl down) (inr (price_body (num 25 (-1)))).

(** The provider reports an object where the price should be, one that
    cannot be converted to a string. *)
Definition unprintable_price : World :=
  world (inr (mint 6 1000000000000)) (inr nft) (inr document)
    (inr (price_body (JObject [("toString", JString "2.5")]))).

(** A supply of 2^53 + 1 base units, no decimals, at a price of 1. *)
Definition odd_supply : World :=
  world (inr (mint 0 9007199254740993)) (inr nft) (inr document)
    (inr (price_body (num 1 0))).

End Sample.

(** ** Statements of the specification, as they are worded *)

(** "For every raw amount and every number of decimals [d >= 0] the
    conversion is [raw / 10^d], exactly." *)
Definition convertToDecimal_exact_everywhere : Prop :=
  forall raw d,
    (0 <= raw)%Z -> (0 <= d)%Z ->
    exists q,
      BigNumber.value (convertToDecimal raw d) = Some q
      /\ q == inject_Z raw / inject_Z (10 ^ d).


(** "When the fetch of the document fails, the name and the symbol obtained
    on-chain are preserved unchanged and the image stays unset." *)
Definition json_failure_preserves_onchain_fields : Prop :=
  forall coerce w a mi nft,
    validPublicKey w a = true ->
    rpc_getMint w a = inr mi ->
    metaplex_findByMint w a = inr nft ->
    json_unusable (axios_get w (nft_uri nft) None) = true ->
    exists r s,
      run (getTokenDetails coerce w a) = (Normal (Some r), s)
      /\ name r = JString (nft_name nft)
      /\ symbol r = JString (nft_symbol nft)
      /\ unset (imageURL r).

(** "When the metadata lookup fails, name, symbol and image are empty." *)
Definition metadata_failure_leaves_fields_empty : Prop :=
  forall coerce w a mi e,
    validPublicKey w a = true ->
    rpc_getMint w a = inr mi ->
    metaplex_findByMint w a = inl e ->
    exists r s,
      run (getTokenDetails coerce w a) = (Normal (Some r), s)
      /\ empty (name r) /\ empty (symbol r) /\ empty (imageURL r)
      /\ decimals r = mint_decimals mi
      /\ totalSupplyRaw r = supply mi.

(** "The computed market cap carries no binary rounding error": it is the
    product of the price and of the supply scaled by its decimals. *)
Definition marketCap_is_exact : Prop :=
  forall coerce w a r s p qp,
    run (getTokenDetails coerce w a) = (Normal (Some r), s) ->
    price r = JNumber p ->
    JSNumber.toQ p = Some qp ->
    (0 <= decimals r)%Z ->
    exists m qm,
      marketcCap r = JNumber m
      /\ JSNumber.toQ m = Some qm
      /\ qm == qp * (inject_Z (totalSupplyRaw r) / inject_Z (10 ^ decimals r)).

(** ** What the result is made of *)

(** The name and the symbol of the on-chain record, if there is one. *)
Definition onchain_name (w : World) (a : string) : JSValue :=
  match metaplex_findByMint w a with
  | inr nft => JString (nft_name nft)
  | inl _ => JUndefined
  end.

Definition onchain_symbol (w : World) (a : string) : JSValue :=
  match metaplex_findByMint w a with
  | inr nft => JString (nft_symbol nft)
  | inl _ => JUndefined
  end.

(** The GET of the document the record points to, when one is made. *)
Definition document_calls (w : World) (a : string) : list NetCall :=
  match metaplex_findByMint w a with
  | inr nft =>
      if JS.truthy (JString (nft_uri nft)) then [HttpGet (nft_uri nft) None]
      else []
  | inl _ => []
  end.

(** The body of that document; [undefined] when there is no record, no
    pointer, or the GET fails. *)
Definition offchain_document (w : World) (a : string) : JSValue :=
  match metaplex_findByMint w a with
  | inr nft =>
      if JS.truthy (JString (nft_uri nft)) then
        match axios_get w (nft_uri nft) None with
        | inr data => data
        | inl _ => JUndefined
        end
      else JUndefined
  | inl _ => JUndefined
  end.

(** [data?.data?.k] of the overview endpoint's answer. *)
Definition overview_field (w : World) (a k : string) : JSValue :=
  match axios_get w (OVERVIEW_ENDPOINT a) (Some HEADERS) with
  | inr data => JS.get_opt (JS.get_opt data "data") k
  | inl _ => JUndefined
  end.

(** Line 129 throws: a price is set and the constructor rejects it. *)
Definition product_fails (coerce : JSValue -> Error + BigNumber.t)
    (w : World) (a : string) : bool :=
  let v := reported_price (axios_get w (API_ENDPOINT a) (Some HEADERS)) in
  if JS.truthy v then
    match new_BigNumber coerce v with
    | inl _ => true
    | inr _ => false
    end
  else false.

(** The GET of the overview, unless line 129 threw. *)
Definition overview_calls (coerce : JSValue -> Error + BigNumber.t)
    (w : World) (a : string) : list NetCall :=
  if product_fails coerce w a then []
  else [HttpGet (OVERVIEW_ENDPOINT a) (Some HEADERS)].

(** The calls of a run that found the mint, in order. *)
Definition calls_after_mint (coerce : JSValue -> Error + BigNumber.t)
    (w : World) (a : string) : list NetCall :=
  ([RpcGetMint a; RpcFindByMint a] ++ document_calls w a
   ++ HttpGet (API_ENDPOINT a) (Some HEADERS) :: overview_calls coerce w a)%list.

(** ** Further concrete runs *)

Module SampleEdge.

(** A mint with nine decimals from which nothing was issued yet. *)
Definition unminted : World :=
  Sample.world (inr (Sample.mint 9 0)) (inr Sample.nft) (inr Sample.document)
    (inr (Sample.price_body (Sample.num 25 (-1)))).

End SampleEdge.

(** * Properties *)

(** ** Decimal digits *)

Module DigitsFacts.

Lemma toN_ofN (n : N) : Digits.toN (Digits.ofN n) = Some n.
Proof.
  unfold Digits.toN, Digits.ofN.
  destruct n as [|p]; [reflexivity|].
  cbn [N.to_uint].
  rewrite NilZero.usu by apply DecimalPos.Unsigned.to_uint_nonnil.
  cbn [option_map]. f_equal.
  exact (DecimalN.Unsigned.of_to (Npos p)).
Qed.

(** The digits of a natural number never begin with a minus sign. *)
Lemma ofN_head (n : N) :
  exists a r, Digits.ofN n = String a r /\ Ascii.eqb a "-" = false.
Proof.
  pose proof (toN_ofN n) as H.
  destruct (Digits.ofN n) as [|a r] eqn:E; [discriminate|].
  exists a, r. split; [reflexivity|].
  destruct (Ascii.eqb_spec a "-") as [->|]; [|reflexivity].
  unfold Digits.toN in H. cbn in H.
  destruct (NilEmpty.uint_of_string r); discriminate.
Qed.


Lemma pow10_pos (n : Z) : (0 <= n -> 0 < 10 ^ n)%Z.
Proof. intros H. apply Z.pow_pos_nonneg; lia. Qed.

Lemma pow10_succ (n : Z) : (0 <= n -> 10 ^ (n + 1) = 10 * 10 ^ n)%Z.
Proof. intros H. rewrite Z.pow_add_r by lia. change (10 ^ 1)%Z with 10%Z. lia. Qed.

Lemma ndigits_fuel_spec (fuel : nat) : forall c,
  c <> 0%N -> (c < 2 ^ N.of_nat fuel)%N ->
  (1 <= Digits.ndigits_fuel fuel c
   /\ 10 ^ (Digits.ndigits_fuel fuel c - 1) <= Z.of_N c
      < 10 ^ Digits.ndigits_fuel fuel c)%Z.
Proof.
  induction fuel as [|f IH]; intros c Hc Hf.
  - cbn in Hf. lia.
  - cbn [Digits.ndigits_fuel].
    destruct (N.ltb_spec c 10) as [Hlt|Hge].
    + rewrite Z.sub_diag, Z.pow_0_r, Z.pow_1_r. lia.
    + pose proof (N.div_mod c 10 ltac:(discriminate)) as E.
      pose proof (N.mod_lt c 10 ltac:(discriminate)) as Hr.
      rewrite Nat2N.inj_succ, N.pow_succ_r' in Hf.
      destruct (IH (c / 10)%N) as (H1 & Hlo & Hhi).
      * set (q := (c / 10)%N) in *. set (r := (c mod 10)%N) in *. lia.
      * apply N.Div0.div_lt_upper_bound. lia.
      * set (m := Digits.ndigits_fuel f (c / 10)) in *.
        replace (1 + m - 1)%Z with (m - 1 + 1)%Z by lia.
        replace (1 + m)%Z with (m + 1)%Z by lia.
        rewrite !pow10_succ by lia.
        set (q := (c / 10)%N) in *. set (r := (c mod 10)%N) in *.
        clear IH Hf. lia.
Qed.

(** [ndigits c] is the length of the decimal expansion of [c]. *)
Lemma ndigits_spec (c : N) :
  c <> 0%N ->
  (1 <= Digits.ndigits c
   /\ 10 ^ (Digits.ndigits c - 1) <= Z.of_N c < 10 ^ Digits.ndigits c)%Z.
Proof.
  intros Hc. apply ndigits_fuel_spec; [assumption|].
  rewrite N2Nat.id. apply N.size_gt.
Qed.

Lemma ndigits_unique (c : N) (n : Z) :
  (1 <= n -> 10 ^ (n - 1) <= Z.of_N c < 10 ^ n -> Digits.ndigits c = n)%Z.
Proof.
  intros Hn (Hlo & Hhi).
  assert (Hc : c <> 0%N).
  { pose proof (pow10_pos (n - 1)). lia. }
  destruct (ndigits_spec c Hc) as (Hm & Hlo' & Hhi').
  set (m := Digits.ndigits c) in *.
  destruct (Z.lt_trichotomy m n) as [L|[E|L]]; [|exact E|].
  - pose proof (Z.pow_le_mono_r 10 m (n - 1) ltac:(lia) ltac:(lia)). lia.
  - pose proof (Z.pow_le_mono_r 10 n (m - 1) ltac:(lia) ltac:(lia)). lia.
Qed.

Lemma ndigits_mul_pow10 (c k : N) :
  c <> 0%N ->
  (Digits.ndigits (c * 10 ^ k) = Digits.ndigits c + Z.of_N k)%Z.
Proof.
  intros Hc. destruct (ndigits_spec c Hc) as (Hm & Hlo & Hhi).
  set (m := Digits.ndigits c) in *.
  apply ndigits_unique; [lia|].
  rewrite N2Z.inj_mul, N2Z.inj_pow. change (Z.of_N 10) with 10%Z.
  replace (m + Z.of_N k - 1)%Z with (m - 1 + Z.of_N k)%Z by lia.
  rewrite !Z.pow_add_r by lia.
  pose proof (pow10_pos (Z.of_N k)). nia.
Qed.

Lemma ndigits_mul (c c' : N) :
  c <> 0%N -> c' <> 0%N ->
  (Digits.ndigits c + Digits.ndigits c' - 1 <= Digits.ndigits (c * c')
   <= Digits.ndigits c + Digits.ndigits c')%Z.
Proof.
  intros Hc Hc'.
  destruct (ndigits_spec c Hc) as (Ha & Hlo & Hhi).
  destruct (ndigits_spec c' Hc') as (Hb & Hlo' & Hhi').
  destruct (ndigits_spec (c * c')%N) as (Hm & Hl & Hh); [lia|].
  set (a := Digits.ndigits c) in *. set (b := Digits.ndigits c') in *.
  set (m := Digits.ndigits (c * c')) in *.
  rewrite N2Z.inj_mul in Hl, Hh.
  pose proof (pow10_pos (a - 1)). pose proof (pow10_pos (b - 1)).
  assert (Hlow : (10 ^ (a + b - 2) <= Z.of_N c * Z.of_N c')%Z).
  { replace (a + b - 2)%Z with ((a - 1) + (b - 1))%Z by lia.
    rewrite Z.pow_add_r by lia. nia. }
  assert (Hup : (Z.of_N c * Z.of_N c' < 10 ^ (a + b))%Z).
  { rewrite Z.pow_add_r by lia. nia. }
  split.
  - destruct (Z.le_gt_cases (a + b - 1) m) as [|L]; [assumption|].
    pose proof (Z.pow_le_mono_r 10 m (a + b - 2) ltac:(lia) ltac:(lia)). lia.
  - destruct (Z.le_gt_cases m (a + b)) as [|L]; [assumption|].
    pose proof (Z.pow_le_mono_r 10 (a + b) (m - 1) ltac:(lia) ltac:(lia)).
    lia.
Qed.

Lemma ndigits_bound (c : N) (n : Z) :
  (0 <= n -> Z.of_N c < 10 ^ n -> Digits.ndigits c <= n)%Z.
Proof.
  intros Hn Hc. destruct (N.eq_dec c 0) as [->|Hz]; [cbn; lia|].
  destruct (ndigits_spec c Hz) as (Hm & Hlo & _).
  destruct (Z.le_gt_cases (Digits.ndigits c) n) as [|L]; [assumption|].
  pose proof (Z.pow_le_mono_r 10 n (Digits.ndigits c - 1)
                ltac:(lia) ltac:(lia)). lia.
Qed.

End DigitsFacts.

(** ** Decimal arithmetic is exact within the range *)

Module BigNumberFacts.
Import BigNumber.

Lemma ofIntegerLiteral_bigint (z : Z) :
  ofIntegerLiteral (Digits.bigint_toString z)
  = Some (make (z <? 0)%Z (Z.abs_N z) 0).
Proof.
  destruct z as [|p|p];
    cbn [Digits.bigint_toString Z.ltb Z.compare Z.abs_N Z.to_N].
  - reflexivity.
  - destruct (DigitsFacts.ofN_head (Npos p)) as (a & r & E & Ha).
    unfold ofIntegerLiteral. rewrite E, Ha, <- E, DigitsFacts.toN_ofN.
    reflexivity.
  - unfold ofIntegerLiteral. cbn [Ascii.eqb Bool.eqb].
    rewrite DigitsFacts.toN_ofN. reflexivity.
Qed.

Lemma div10_facts (c : N) :
  c <> 0%N -> (c mod 10 = 0)%N ->
  (c / 10 <> 0 /\ c = c / 10 * 10 /\ 2 * (c / 10) <= c)%N.
Proof.
  intros Hc Hm.
  pose proof (N.div_mod c 10 ltac:(discriminate)) as E.
  rewrite Hm in E. lia.
Qed.

(** Stripping keeps the value: the zeros removed go to the exponent. *)
Lemma strip_spec (fuel : nat) : forall c e c' e',
  strip fuel c e = (c', e') ->
  (e <= e')%Z /\ c = (c' * 10 ^ Z.to_N (e' - e))%N.
Proof.
  induction fuel as [|k IH]; intros c e c' e'; cbn [strip].
  - intros [= <- <-]. rewrite Z.sub_diag. cbn. lia.
  - destruct (N.eqb_spec (c mod 10) 0) as [Hm|Hm].
    + intros H. apply IH in H. destruct H as (Hle & Hc).
      split; [lia|].
      replace (Z.to_N (e' - e)) with (N.succ (Z.to_N (e' - (e + 1))))
        by lia.
      rewrite N.pow_succ_r', N.mul_assoc, (N.mul_comm c'), <- N.mul_assoc.
      rewrite <- Hc.
      pose proof (N.div_mod c 10 ltac:(discriminate)) as E.
      rewrite Hm in E. lia.
    + intros [= <- <-]. rewrite Z.sub_diag. cbn. lia.
Qed.

(** With enough fuel the result does not depend on the fuel. *)
Lemma strip_fuel (f1 : nat) : forall f2 c e,
  c <> 0%N -> (c < 2 ^ N.of_nat f1)%N -> (c < 2 ^ N.of_nat f2)%N ->
  strip f1 c e = strip f2 c e.
Proof.
  induction f1 as [|f1 IH]; intros f2 c e Hc H1 H2.
  - cbn in H1. lia.
  - destruct f2 as [|f2]; [cbn in H2; lia|].
    cbn [strip].
    destruct (N.eqb_spec (c mod 10) 0) as [Hm|Hm]; [|reflexivity].
    destruct (div10_facts c Hc Hm) as (Hd & _ & Hle).
    rewrite Nat2N.inj_succ, N.pow_succ_r' in H1, H2.
    apply IH; [assumption|lia|lia].
Qed.

Lemma size_fuel (c : N) : (c < 2 ^ N.of_nat (N.to_nat (N.size c)))%N.
Proof. rewrite N2Nat.id. apply N.size_gt. Qed.


Lemma normal_mul10 neg (c : N) e :
  c <> 0%N -> normal neg (c * 10) e = normal neg c (e + 1).
Proof.
  intros Hc. unfold normal.
  destruct c as [|p]; [congruence|].
  change (N.pos p * 10)%N with (N.pos (p * 10)).
  pose proof (size_fuel (N.pos (p * 10))) as Hf.
  destruct (N.to_nat (N.size (N.pos (p * 10)))) as [|f] eqn:Ef.
  - cbn in Hf. lia.
  - cbn [strip].
    change (N.pos (p * 10)) with (N.pos p * 10)%N.
    rewrite N.Div0.mod_mul, N.div_mul by discriminate.
    cbn [N.eqb].
    rewrite (strip_fuel f (N.to_nat (N.size (N.pos p))));
      [reflexivity|discriminate| |apply size_fuel].
    rewrite Nat2N.inj_succ, N.pow_succ_r' in Hf.
    change (N.pos (p * 10)) with (N.pos p * 10)%N in Hf. lia.
Qed.

(** Trailing zeros of the coefficient are the same number as a larger
    exponent. *)
Lemma normal_pow10 neg (c : N) (k : N) : forall e,
  c <> 0%N -> normal neg (c * 10 ^ k) e = normal neg c (e + Z.of_N k).
Proof.
  induction k as [|k IH] using N.peano_ind; intros e Hc.
  - rewrite N.pow_0_r, N.mul_1_r, Z.add_0_r. reflexivity.
  - rewrite N.pow_succ_r', (N.mul_comm 10), N.mul_assoc.
    rewrite normal_mul10.
    + rewrite IH by assumption. f_equal. lia.
    + apply N.neq_mul_0. split; [assumption|].
      apply N.pow_nonzero. discriminate.
Qed.

Lemma strip_shift (fuel : nat) : forall c e k,
  strip fuel c (e + k) = (fst (strip fuel c e), (snd (strip fuel c e) + k)%Z).
Proof.
  induction fuel as [|f IH]; intros c e k; cbn [strip].
  - reflexivity.
  - destruct (c mod 10 =? 0)%N; [|reflexivity].
    replace (e + k + 1)%Z with (e + 1 + k)%Z by lia. apply IH.
Qed.

(** Moving the exponent of a non-zero number moves the stored exponent. *)
Lemma normal_shift neg (c : N) e k :
  c <> 0%N ->
  exists c' e', normal neg c e = Finite neg c' e'
                /\ normal neg c (e + k) = Finite neg c' (e' + k).
Proof.
  intros Hc. unfold normal. destruct c as [|p]; [congruence|].
  rewrite strip_shift.
  destruct (strip _ _ e) as [c' e']. exists c', e'. split; reflexivity.
Qed.

Lemma ten_nonzero : ~ (10 == 0)%Q.
Proof. discriminate. Qed.

Lemma rational_shift neg (c : N) (k : N) e :
  rational neg (c * 10 ^ k) e == rational neg c (e + Z.of_N k).
Proof.
  unfold rational.
  rewrite Qpower_plus by exact ten_nonzero.
  replace (cond_Zopp neg (Z.of_N (c * 10 ^ k)))
    with (cond_Zopp neg (Z.of_N c) * 10 ^ Z.of_N k)%Z.
  - rewrite inject_Z_mult, Zpower_Qpower by lia.
    change (inject_Z 10) with 10%Q. ring.
  - rewrite N2Z.inj_mul, N2Z.inj_pow.
    destruct neg; cbn [cond_Zopp]; change (Z.of_N 10) with 10%Z; ring.
Qed.

Lemma rational_zero neg e : rational neg 0 e == 0.
Proof. unfold rational. destruct neg; cbn [cond_Zopp Z.of_N Z.opp]; ring. Qed.

(** Removing the trailing zeros changes neither the value nor the place of
    the leading digit. *)
Lemma normal_form neg c e :
  c <> 0%N ->
  exists c' e',
    normal neg c e = Finite neg c' e'
    /\ c' <> 0%N
    /\ rational neg c' e' == rational neg c e
    /\ leading c' e' = leading c e.
Proof.
  intros Hc. unfold normal. destruct c as [|p]; [congruence|].
  destruct (strip _ _ _) as [c' e'] eqn:E.
  exists c', e'. split; [reflexivity|].
  apply strip_spec in E. destruct E as (Hle & Hp).
  assert (Hc' : c' <> 0%N) by (intros ->; rewrite N.mul_0_l in Hp; discriminate).
  split; [exact Hc'|]. split.
  - rewrite Hp, rational_shift.
    replace (e + Z.of_N (Z.to_N (e' - e)))%Z with e' by lia.
    reflexivity.
  - unfold leading. rewrite Hp, DigitsFacts.ndigits_mul_pow10 by assumption.
    lia.
Qed.

Lemma make_zero neg e : make neg 0 e = Finite neg 0 0.
Proof. reflexivity. Qed.

(** Within the range [make] builds a finite number of the value asked
    for. *)
Lemma make_form neg c e :
  c <> 0%N ->
  (MIN_EXP <= leading c e <= MAX_EXP)%Z ->
  exists c' e',
    make neg c e = Finite neg c' e'
    /\ c' <> 0%N
    /\ rational neg c' e' == rational neg c e
    /\ leading c' e' = leading c e.
Proof.
  intros Hc Hr.
  destruct (normal_form neg c e Hc) as (c' & e' & E & Hc' & Hv & Hl).
  exists c', e'. split; [|auto].
  unfold make. rewrite E. unfold clamp.
  destruct c' as [|p]; [congruence|]. rewrite Hl.
  destruct (Z.ltb_spec MAX_EXP (leading c e)); [lia|].
  destruct (Z.ltb_spec (leading c e) MIN_EXP); [lia|]. reflexivity.
Qed.

(** Outside the range it does not: an overflow is an infinity, an
    underflow a zero. *)
Lemma make_out_of_range neg c e :
  c <> 0%N ->
  ((MAX_EXP < leading c e)%Z -> make neg c e = Infinity neg)
  /\ ((leading c e < MIN_EXP)%Z -> make neg c e = Finite neg 0 0).
Proof.
  intros Hc.
  destruct (normal_form neg c e Hc) as (c' & e' & E & Hc' & Hv & Hl).
  unfold make. rewrite E. unfold clamp.
  destruct c' as [|p]; [congruence|]. rewrite Hl.
  unfold MAX_EXP, MIN_EXP.
  split; intros H.
  - destruct (Z.ltb_spec 10000000 (leading c e)); [reflexivity|lia].
  - destruct (Z.ltb_spec 10000000 (leading c e)); [lia|].
    destruct (Z.ltb_spec (leading c e) (-10000000)); [reflexivity|lia].
Qed.

Lemma make_one k :
  (MIN_EXP <= k <= MAX_EXP)%Z -> make false 1 k = Finite false 1 k.
Proof.
  intros Hk. unfold make.
  change (normal false 1 k) with (Finite false 1 k).
  unfold clamp, leading. change (Digits.ndigits 1) with 1%Z.
  replace (k + 1 - 1)%Z with k by lia.
  destruct (Z.ltb_spec MAX_EXP k); [lia|].
  destruct (Z.ltb_spec k MIN_EXP); [lia|]. reflexivity.
Qed.

Lemma make_in_range neg c e :
  c <> 0%N ->
  (MIN_EXP <= leading c e <= MAX_EXP)%Z ->
  make neg c e = normal neg c e.
Proof.
  intros Hc Hr.
  destruct (normal_form neg c e Hc) as (c' & e' & E & Hc' & Hv & Hl).
  unfold make. rewrite E. unfold clamp.
  destruct c' as [|p]; [congruence|]. rewrite Hl.
  destruct (Z.ltb_spec MAX_EXP (leading c e)); [lia|].
  destruct (Z.ltb_spec (leading c e) MIN_EXP); [lia|]. reflexivity.
Qed.

Lemma make_pow10 neg (c : N) (k : N) e :
  c <> 0%N -> make neg (c * 10 ^ k) e = make neg c (e + Z.of_N k).
Proof. intros Hc. unfold make. rewrite normal_pow10 by assumption. reflexivity. Qed.

Lemma rational_times a c e b c' e' :
  rational (xorb a b) (c * c') (e + e')
  == rational a c e * rational b c' e'.
Proof.
  unfold rational. rewrite Qpower_plus by exact ten_nonzero.
  replace (cond_Zopp (xorb a b) (Z.of_N (c * c')))
    with (cond_Zopp a (Z.of_N c) * cond_Zopp b (Z.of_N c'))%Z
    by (rewrite N2Z.inj_mul; destruct a, b; cbn [cond_Zopp xorb]; ring).
  rewrite inject_Z_mult. ring.
Qed.

(** The product of two finite numbers is exact when one of them is zero or
    the leading exponents add up within the range. *)
Lemma times_exact a c e b c' e' :
  c = 0%N \/ c' = 0%N
  \/ (MIN_EXP <= leading c e + leading c' e'
      /\ leading c e + leading c' e' + 1 <= MAX_EXP)%Z ->
  exists c2 e2,
    times (Finite a c e) (Finite b c' e') = Finite (xorb a b) c2 e2
    /\ rational (xorb a b) c2 e2 == rational a c e * rational b c' e'
    /\ (c2 = 0%N <-> c = 0%N \/ c' = 0%N)
    /\ (c2 <> 0%N ->
        leading c e + leading c' e' <= leading c2 e2
        <= leading c e + leading c' e' + 1)%Z.
Proof.
  intros H. cbn [times].
  destruct (N.eq_dec c 0) as [->|Hc].
  { rewrite N.mul_0_l, make_zero. exists 0%N, 0%Z.
    split; [reflexivity|]. split; [|split; [tauto|congruence]].
    rewrite !rational_zero. ring. }
  destruct (N.eq_dec c' 0) as [->|Hc'].
  { rewrite N.mul_0_r, make_zero. exists 0%N, 0%Z.
    split; [reflexivity|]. split; [|split; [tauto|congruence]].
    rewrite !rational_zero. ring. }
  destruct H as [H|[H|H]]; [congruence|congruence|].
  pose proof (DigitsFacts.ndigits_mul c c' Hc Hc') as Hn.
  assert (Hl : (leading c e + leading c' e' <= leading (c * c') (e + e')
                <= leading c e + leading c' e' + 1)%Z)
    by (unfold leading in *; lia).
  destruct (make_form (xorb a b) (c * c') (e + e')) as (c2 & e2 & E & Hc2 & Hv & Hl2);
    [lia|lia|].
  exists c2, e2. split; [exact E|]. split; [|split].
  - rewrite Hv. apply rational_times.
  - split; [congruence|]. intros [?|?]; congruence.
  - intros _. rewrite Hl2. exact Hl.
Qed.

Lemma rational_bigint (z : Z) :
  rational (z <? 0)%Z (Z.abs_N z) 0 == inject_Z z.
Proof.
  unfold rational.
  replace (cond_Zopp (z <? 0)%Z (Z.of_N (Z.abs_N z))) with z.
  - cbn. ring.
  - rewrite N2Z.inj_abs_N. destruct z; cbn; reflexivity.
Qed.

(** A number read from a JS number is finite when the JS number is, and
    its leading exponent is small. *)
Lemma ofDigits_form neg c x :
  exists c' e',
    ofDigits neg c x = Finite neg c' e'
    /\ (c' = 0%N \/ (- NUMBER_EXP <= leading c' e' <= NUMBER_EXP)%Z).
Proof.
  unfold ofDigits. destruct (N.eq_dec c 0) as [->|Hc].
  - exists 0%N, 0%Z. split; [reflexivity|left; reflexivity].
  - destruct (normal_form neg c x Hc) as (c' & e' & -> & Hc' & _).
    destruct c' as [|p]; [congruence|].
    destruct (Z.leb_spec (- NUMBER_EXP) (leading (N.pos p) e'));
      destruct (Z.leb_spec (leading (N.pos p) e') NUMBER_EXP);
      cbn [andb]; eexists; eexists; (split; [reflexivity|]);
      first [left; reflexivity | right; lia].
Qed.

Lemma ofNumber_finite neg m e :
  exists c x,
    ofNumber (S754_finite neg m e) = Finite neg c x
    /\ (c = 0%N \/ (- NUMBER_EXP <= leading c x <= NUMBER_EXP)%Z).
Proof.
  unfold ofNumber.
  destruct (0 <=? e)%Z;
    destruct (shortest _ _ _ _ _ _) as [[c x]|];
    apply ofDigits_form.
Qed.

Lemma ofNumber_bounded p b c e :
  ofNumber p = Finite b c e ->
  c = 0%N \/ (- NUMBER_EXP <= leading c e <= NUMBER_EXP)%Z.
Proof.
  destruct p as [neg|neg| |neg m x]; try discriminate.
  - cbn [ofNumber]. intros [= <- <- <-]. left. reflexivity.
  - destruct (ofNumber_finite neg m x) as (c' & e' & -> & H).
    intros [= <- <- <-]. exact H.
Qed.

End BigNumberFacts.

(** ** [convertToDecimal] *)

Module ConvertFacts.
Import BigNumber BigNumberFacts.

(** Printing a [bigint] and reading it back loses nothing; the constructor
    reads the string by itself. *)
Lemma BigNumber_of_bigint_make (z : Z) :
  BigNumber_of_bigint z = make (z <? 0)%Z (Z.abs_N z) 0.
Proof.
  unfold BigNumber_of_bigint. rewrite ofIntegerLiteral_bigint. reflexivity.
Qed.

Lemma new_BigNumber_bigint coerce (z : Z) :
  new_BigNumber coerce (JString (Digits.bigint_toString z))
  = inr (BigNumber_of_bigint z).
Proof.
  unfold new_BigNumber, BigNumber_of_bigint.
  rewrite ofIntegerLiteral_bigint. reflexivity.
Qed.

Lemma bigint_leading (raw : Z) :
  raw <> 0%Z ->
  (Digits.ndigits (Z.abs_N raw) <= MAX_EXP + 1)%Z ->
  Z.abs_N raw <> 0%N /\ (MIN_EXP <= leading (Z.abs_N raw) 0 <= MAX_EXP)%Z.
Proof.
  intros Hr Hn. assert (Hc : Z.abs_N raw <> 0%N) by lia.
  split; [exact Hc|].
  destruct (DigitsFacts.ndigits_spec _ Hc) as (H1 & _).
  unfold leading, MIN_EXP, MAX_EXP in *. lia.
Qed.

(** Within the range [convertToDecimal] scales the raw amount by a power
    of ten, exactly. *)
Lemma convertToDecimal_finite (raw d : Z) :
  (0 <= d <= MAX_EXP)%Z ->
  (Digits.ndigits (Z.abs_N raw) <= MAX_EXP + 1)%Z ->
  exists c e,
    convertToDecimal raw d = Finite (raw <? 0)%Z c e
    /\ rational (raw <? 0)%Z c e == inject_Z raw * Qpower 10 (- d)
    /\ (c = 0%N <-> raw = 0%Z)
    /\ (c <> 0%N ->
        leading c e = (Digits.ndigits (Z.abs_N raw) - 1 - d)%Z).
Proof.
  intros Hd Hn. unfold convertToDecimal, shiftedBy.
  rewrite BigNumber_of_bigint_make.
  rewrite make_one by (unfold MIN_EXP, MAX_EXP in *; lia).
  destruct (Z.eq_dec raw 0) as [->|Hr].
  { exists 0%N, 0%Z. split; [reflexivity|].
    split; [|split; [tauto|congruence]].
    rewrite rational_zero. cbn. ring. }
  destruct (bigint_leading raw Hr Hn) as (Hc & Hl).
  destruct (make_form (raw <? 0)%Z (Z.abs_N raw) 0 Hc Hl)
    as (c1 & e1 & -> & Hc1 & H1 & L1).
  cbn [times]. rewrite N.mul_1_r, xorb_false_r.
  assert (L2 : leading c1 (e1 + - d)
               = (Digits.ndigits (Z.abs_N raw) - 1 - d)%Z)
    by (unfold leading in *; lia).
  destruct (make_form (raw <? 0)%Z c1 (e1 + - d) Hc1)
    as (c2 & e2 & E2 & Hc2 & H2 & L3).
  { destruct (DigitsFacts.ndigits_spec _ Hc) as (Hone & _).
    rewrite L2. unfold MIN_EXP, MAX_EXP in *. lia. }
  exists c2, e2. split; [exact E2|]. split; [|split].
  - rewrite H2.
    transitivity (rational (raw <? 0)%Z c1 e1 * Qpower 10 (- d)).
    + unfold rational. rewrite Qpower_plus by exact ten_nonzero. ring.
    + rewrite H1, rational_bigint. reflexivity.
  - split; [congruence|]. intros ->. congruence.
  - intros _. rewrite L3. exact L2.
Qed.

(** With more decimals than the range has exponents, the power of ten
    itself underflows and every amount becomes a zero. *)
Lemma convertToDecimal_underflow (raw d : Z) :
  (MAX_EXP < d)%Z ->
  (Digits.ndigits (Z.abs_N raw) <= MAX_EXP + 1)%Z ->
  convertToDecimal raw d = Finite (raw <? 0)%Z 0 0.
Proof.
  intros Hd Hn. unfold convertToDecimal, shiftedBy.
  rewrite BigNumber_of_bigint_make.
  assert (E : make false 1 (- d) = Finite false 0 0).
  { apply make_out_of_range; [discriminate|].
    unfold leading. change (Digits.ndigits 1) with 1%Z.
    unfold MIN_EXP, MAX_EXP in *. lia. }
  rewrite E.
  destruct (Z.eq_dec raw 0) as [->|Hr]; [reflexivity|].
  destruct (bigint_leading raw Hr Hn) as (Hc & Hl).
  destruct (make_form (raw <? 0)%Z (Z.abs_N raw) 0 Hc Hl)
    as (c1 & e1 & -> & _).
  cbn [times]. rewrite N.mul_0_r, xorb_false_r. reflexivity.
Qed.

(** One unit with [10000001] decimals: the rational is not zero, the
    [BigNumber] is. *)
Lemma tiny_amount_is_not_exact (d : Z) (q : Q) :
  (MAX_EXP < d)%Z ->
  value (convertToDecimal 1 d) = Some q ->
  ~ q == inject_Z 1 / inject_Z (10 ^ d).
Proof.
  intros Hd Hq Hv.
  rewrite convertToDecimal_underflow in Hq
    by (try exact Hd; change (Digits.ndigits (Z.abs_N 1)) with 1%Z;
        unfold MAX_EXP; lia).
  cbn [value] in Hq. injection Hq as <-.
  rewrite rational_zero in Hv.
  assert (Hp : (0 < 10 ^ d)%Z)
    by (apply DigitsFacts.pow10_pos; unfold MAX_EXP in Hd; lia).
  assert (Hn : ~ inject_Z (10 ^ d) == 0).
  { unfold Qeq. cbn [Qnum Qden inject_Z]. lia. }
  assert (H1 : inject_Z (10 ^ d) * (inject_Z 1 / inject_Z (10 ^ d)) == 1)
    by (field; exact Hn).
  rewrite <- Hv in H1. 
  assert (H0 : inject_Z (10 ^ d) * 0 == 0) by ring.
  rewrite H0 in H1. discriminate H1.
Qed.

Lemma mint_bounds (mi : MintInfo) :
  (0 <= mint_decimals mi <= 255)%Z /\ (0 <= supply mi < 2 ^ 64)%Z.
Proof.
  unfold mint_decimals, supply.
  pose proof (N.mod_lt (mint_decimals_u8 mi) 256 ltac:(discriminate)).
  pose proof (N.mod_lt (mint_supply_u64 mi) (2 ^ 64) ltac:(discriminate)).
  set (x := (mint_decimals_u8 mi mod 256)%N) in *.
  set (y := (mint_supply_u64 mi mod 2 ^ 64)%N) in *.
  change (2 ^ 64)%Z with (Z.of_N (2 ^ 64)). lia.
Qed.

Lemma supply_digits (mi : MintInfo) :
  (Digits.ndigits (Z.abs_N (supply mi)) <= 20)%Z.
Proof.
  destruct (mint_bounds mi) as (_ & H0 & H1).
  apply DigitsFacts.ndigits_bound; [lia|].
  rewrite N2Z.inj_abs_N, Z.abs_eq by lia.
  eapply Z.lt_trans; [exact H1|]. reflexivity.
Qed.

(** A mint account is always within the range: its supply has at most 20
    digits and its decimals are at most 255. *)
Lemma convertToDecimal_mint (mi : MintInfo) :
  exists c e,
    convertToDecimal (supply mi) (mint_decimals mi) = Finite false c e
    /\ rational false c e
       == inject_Z (supply mi) * Qpower 10 (- mint_decimals mi)
    /\ (c = 0%N <-> supply mi = 0%Z)
    /\ (c <> 0%N -> (-255 <= leading c e <= 19)%Z).
Proof.
  destruct (mint_bounds mi) as (Hd & Hs).
  pose proof (supply_digits mi) as Hn.
  destruct (convertToDecimal_finite (supply mi) (mint_decimals mi))
    as (c & e & E & Hv & Hz & Hl);
    [unfold MAX_EXP; lia|unfold MAX_EXP; lia|].
  replace (supply mi <? 0)%Z with false in *
    by (symmetry; apply Z.ltb_ge; lia).
  exists c, e. split; [exact E|]. split; [exact Hv|]. split; [exact Hz|].
  intros Hc. rewrite (Hl Hc).
  assert (Hc' : Z.abs_N (supply mi) <> 0%N) by (rewrite Hz in Hc; lia).
  destruct (DigitsFacts.ndigits_spec _ Hc') as (Hone & _). lia.
Qed.


Lemma convertToDecimal_zero (d : Z) :
  (0 <= d)%Z -> convertToDecimal 0 d = Finite false 0 0.
Proof.
  intros Hd. destruct (Z.le_gt_cases d MAX_EXP) as [H|H].
  - unfold convertToDecimal, shiftedBy.
    rewrite make_one by (unfold MIN_EXP, MAX_EXP in *; lia). reflexivity.
  - apply (convertToDecimal_underflow 0 d H).
    change (Digits.ndigits (Z.abs_N 0)) with 0%Z. unfold MAX_EXP. lia.
Qed.

End ConvertFacts.

(** ** Following a run *)

Ltac simp :=
  cbn [store trace Var.eqb negb JS.nullish JS.prop JS.truthy JS.defined
       fst snd].

Ltac exec :=
  cbv beta iota zeta delta
    [metadataStage marketStage bind ret try_catch assign read await get when
     throw scope completed multipliedBy];
  simp.

Ltac scrutinee x :=
  lazymatch x with
  | negb ?y => scrutinee y
  | _ => constr:(x)
  end.

(** Follow the run through every answer the world may give; an answer
    already known by an equation is used instead of split on. *)
Ltac split_on_answers :=
  repeat (match goal with
          | |- context [match ?x with _ => _ end] =>
              lazymatch x with
              | context [match _ with _ => _ end] => fail
              | _ =>
                  let y := scrutinee x in
                  first [ match goal with E : y = _ |- _ => rewrite E end
                        | destruct y eqn:? ]
              end
          end; simp).

(** From [stage s = (c, s')]: replace [s'] by what the stage computes and
    follow it. *)
Ltac stage_inversion H :=
  match type of H with
  | ?m = (_, ?s') =>
      let E := fresh "E" in
      assert (E : s' = snd m) by (rewrite H; reflexivity);
      clear H; subst s'
  end;
  exec; split_on_answers.

(** A body that is [undefined] or [null] has no property to offer. *)
Ltac settle_nullish :=
  repeat match goal with
    | E : JS.nullish ?j = true |- _ =>
        destruct j; try discriminate E; clear E
    end;
  cbn [JS.nullish JS.prop JS.truthy] in *;
  first [reflexivity | discriminate].

Lemma endpoints_differ a : (OVERVIEW_ENDPOINT a =? API_ENDPOINT a) = false.
Proof. reflexivity. Qed.

Section StageFacts.

Variable coerce : JSValue -> Error + BigNumber.t.
Variable w : World.

(** Neither stage lets an exception out. *)
Lemma metadataStage_normal a s :
  exists s', metadataStage w a s = (Normal tt, s').
Proof. exec. split_on_answers; eexists; reflexivity. Qed.

Lemma marketStage_normal a raw d s :
  exists s', marketStage coerce w a raw d s = (Normal tt, s').
Proof. exec. split_on_answers; eexists; reflexivity. Qed.

Lemma metadata_lookup_failed a s c s' e :
  metaplex_findByMint w a = inl e ->
  metadataStage w a s = (c, s') ->
  store s' Var.tokenName = JUndefined
  /\ store s' Var.tokenSymbol = JUndefined
  /\ store s' Var.tokenImageURL = JUndefined.
Proof. intros Hm H. stage_inversion H; auto. Qed.

Lemma metadata_json_dropped a s c s' nft :
  metaplex_findByMint w a = inr nft ->
  json_unusable (axios_get w (nft_uri nft) None) = true ->
  metadataStage w a s = (c, s') ->
  store s' Var.tokenName = JString (nft_name nft)
  /\ store s' Var.tokenSymbol = JString (nft_symbol nft)
  /\ store s' Var.tokenImageURL = JUndefined.
Proof.
  intros Hm Hj H.
  destruct (axios_get w (nft_uri nft) None) as [e|body] eqn:Ej;
    [|destruct body; try discriminate Hj];
    stage_inversion H; auto.
Qed.

Lemma metadata_onchain_kept a s c s' nft :
  metaplex_findByMint w a = inr nft ->
  metadataStage w a s = (c, s') ->
  (nft_name nft <> "" -> store s' Var.tokenName = JString (nft_name nft))
  /\ (nft_symbol nft <> "" ->
      store s' Var.tokenSymbol = JString (nft_symbol nft)).
Proof.
  intros Hm H.
  split; intros N; apply String.eqb_neq in N;
    stage_inversion H; reflexivity.
Qed.

Lemma metadata_gap_filled a s c s' nft fields :
  metaplex_findByMint w a = inr nft ->
  nft_uri nft <> "" ->
  axios_get w (nft_uri nft) None = inr (JObject fields) ->
  metadataStage w a s = (c, s') ->
  (nft_name nft = "" -> JS.truthy (JS.lookup "name" fields) = true ->
   store s' Var.tokenName = JS.lookup "name" fields)
  /\ (nft_symbol nft = "" -> JS.truthy (JS.lookup "symbol" fields) = true ->
      store s' Var.tokenSymbol = JS.lookup "symbol" fields)
  /\ store s' Var.tokenImageURL = JS.lookup "image" fields.
Proof.
  intros Hm Hu Hj H. apply String.eqb_neq in Hu.
  repeat split; intros;
    repeat match goal with
      | E : _ = "" |- _ => apply String.eqb_eq in E
      end;
    stage_inversion H; reflexivity.
Qed.

Lemma metadata_fallback a s c s' placeholder :
  metadataStage w a s = (c, s') ->
  JS.or (store s' Var.tokenName) placeholder
  = JS.or (JS.or (onchain_name w a)
             (JS.prop (offchain_document w a) "name")) placeholder
  /\ JS.or (store s' Var.tokenSymbol) placeholder
     = JS.or (JS.or (onchain_symbol w a)
                (JS.prop (offchain_document w a) "symbol")) placeholder.
Proof.
  intros H.
  unfold JS.or, onchain_name, onchain_symbol, offchain_document.
  split; stage_inversion H; first [reflexivity | settle_nullish].
Qed.

Lemma metadata_image a s c s' :
  metadataStage w a s = (c, s') ->
  store s' Var.tokenImageURL = JS.prop (offchain_document w a) "image".
Proof.
  intros H. unfold offchain_document.
  stage_inversion H; first [reflexivity | settle_nullish].
Qed.

Lemma metadata_trace a s c s' :
  metadataStage w a s = (c, s') ->
  trace s' = (trace s ++ RpcFindByMint a :: document_calls w a)%list.
Proof.
  intros H. unfold document_calls.
  stage_inversion H; rewrite <- ?app_assoc; reflexivity.
Qed.

(** The market stage leaves the descriptive variables alone. *)
Lemma market_frame a raw d s c s' :
  marketStage coerce w a raw d s = (c, s') ->
  store s' Var.tokenName = store s Var.tokenName
  /\ store s' Var.tokenSymbol = store s Var.tokenSymbol
  /\ store s' Var.tokenImageURL = store s Var.tokenImageURL.
Proof. intros H. stage_inversion H; auto. Qed.

(** The market cap is assigned when a price is set and the product of
    line 129 is computed; it stays undefined when that line throws. *)
Lemma market_cap_formula a raw d s c s' :
  marketStage coerce w a raw d s = (c, s') ->
  store s' Var.marketCap =
    if JS.defined (store s' Var.price)
    then match multipliedBy coerce (convertToDecimal raw d)
                 (store s' Var.price) with
         | inr product => JNumber (BigNumber.toNumber product)
         | inl _ => JUndefined
         end
    else JUndefined.
Proof. intros H. unfold multipliedBy. stage_inversion H; reflexivity. Qed.

Lemma market_price a raw d s c s' :
  marketStage coerce w a raw d s = (c, s') ->
  let v := reported_price (axios_get w (API_ENDPOINT a) (Some HEADERS)) in
  store s' Var.price = if JS.truthy v then v else JUndefined.
Proof.
  intros H. unfold reported_price. stage_inversion H; try reflexivity.
  all: unfold JS.get_opt in *;
    repeat match goal with
      | E : JS.nullish _ = _ |- _ => rewrite E in *; clear E
      end;
    simp; first [reflexivity | discriminate].
Qed.

Lemma truthy_defined v : JS.truthy v = true -> JS.defined v = true.
Proof. destruct v; cbn; congruence. Qed.

(** Line 129 throws exactly when the constructor rejects the price that
    was set. *)
Lemma product_fails_price a raw d s c s' :
  marketStage coerce w a raw d s = (c, s') ->
  product_fails coerce w a
  = if JS.defined (store s' Var.price)
    then match new_BigNumber coerce (store s' Var.price) with
         | inl _ => true
         | inr _ => false
         end
    else false.
Proof.
  intros H. pose proof (market_price _ _ _ _ _ _ H) as P. cbn zeta in P.
  unfold product_fails. rewrite P.
  destruct (JS.truthy (reported_price _)) eqn:T; [|reflexivity].
  rewrite (truthy_defined _ T). reflexivity.
Qed.

(** The overview is asked, and its fields assigned, unless line 129
    threw. *)
Lemma market_overview_raw a raw d s c s' :
  marketStage coerce w a raw d s = (c, s') ->
  let fails :=
    if JS.defined (store s' Var.price)
    then match new_BigNumber coerce (store s' Var.price) with
         | inl _ => true
         | inr _ => false
         end
    else false in
  (store s' Var.liquidityUsd
   = if fails then JUndefined else overview_field w a "liquidity")
  /\ (store s' Var.holders
      = if fails then JUndefined else overview_field w a "holders")
  /\ (store s' Var.volume24h
      = if fails then JUndefined else overview_field w a "volume24h")
  /\ trace s'
     = (trace s ++ HttpGet (API_ENDPOINT a) (Some HEADERS)
          :: (if fails then []
              else [HttpGet (OVERVIEW_ENDPOINT a) (Some HEADERS)]))%list.
Proof.
  intros H. cbn zeta. unfold overview_field.
  repeat split; stage_inversion H; rewrite <- ?app_assoc; reflexivity.
Qed.

Lemma market_overview a raw d s c s' :
  marketStage coerce w a raw d s = (c, s') ->
  (product_fails coerce w a = false ->
   store s' Var.liquidityUsd = overview_field w a "liquidity"
   /\ store s' Var.holders = overview_field w a "holders"
   /\ store s' Var.volume24h = overview_field w a "volume24h")
  /\ (product_fails coerce w a = true ->
      store s' Var.liquidityUsd = JUndefined
      /\ store s' Var.holders = JUndefined
      /\ store s' Var.volume24h = JUndefined).
Proof.
  intros H. rewrite (product_fails_price _ _ _ _ _ _ H).
  destruct (market_overview_raw _ _ _ _ _ _ H) as (L & O & V & _).
  cbn zeta in L, O, V.
  split; intros F; rewrite F in L, O, V; auto.
Qed.

Lemma market_trace a raw d s c s' :
  marketStage coerce w a raw d s = (c, s') ->
  trace s'
  = (trace s ++ HttpGet (API_ENDPOINT a) (Some HEADERS)
       :: overview_calls coerce w a)%list.
Proof.
  intros H. unfold overview_calls.
  rewrite (product_fails_price _ _ _ _ _ _ H).
  destruct (market_overview_raw _ _ _ _ _ _ H) as (_ & _ & _ & T).
  exact T.
Qed.

(** Once the address is well formed and the mint is found, the call
    returns the object built after both stages. *)
Lemma getTokenDetails_returns a mi :
  validPublicKey w a = true ->
  rpc_getMint w a = inr mi ->
  exists s1 s2,
    metadataStage w a (after_mint a) = (Normal tt, s1)
    /\ marketStage coerce w a (supply mi) (mint_decimals mi) s1
       = (Normal tt, s2)
    /\ run (getTokenDetails coerce w a)
       = (Normal
            (Some
               (result_of a mi
                  (BigNumber.toFormat
                     (convertToDecimal (supply mi) (mint_decimals mi)))
                  s2)),
          s2).
Proof.
  intros Hv Hm.
  destruct (metadataStage_normal a (after_mint a)) as [s1 E1].
  destruct (marketStage_normal a (supply mi) (mint_decimals mi) s1)
    as [s2 E2].
  exists s1, s2. split; [exact E1|]. split; [exact E2|].
  unfold run, getTokenDetails, try_catch, bind, new_PublicKey.
  rewrite Hv. unfold ret, await. rewrite Hm.
  fold (after_mint a). rewrite E1, E2. reflexivity.
Qed.

(** ... and it returns an object in no other case. *)
Lemma getTokenDetails_returned a r s :
  run (getTokenDetails coerce w a) = (Normal (Some r), s) ->
  validPublicKey w a = true /\ exists mi, rpc_getMint w a = inr mi.
Proof.
  unfold run, getTokenDetails, try_catch, bind, new_PublicKey.
  destruct (validPublicKey w a); [|discriminate].
  unfold ret at 1, await.
  destruct (rpc_getMint w a) as [e|mi]; [discriminate|].
  intros _. split; [reflexivity|]. exists mi. reflexivity.
Qed.

(** Two falsy reports of the price endpoint cannot be told apart. *)
Lemma falsy_price_answers_alike a data data' :
  axios_get w (API_ENDPOINT a) (Some HEADERS) = inr data ->
  JS.truthy (JS.get_opt (JS.get_opt data "data") "value") = false ->
  JS.truthy (JS.get_opt (JS.get_opt data' "data") "value") = false ->
  let w' := with_price_answer w a (inr data') in
  fst (run (getTokenDetails coerce w' a))
  = fst (run (getTokenDetails coerce w a))
  /\ trace (snd (run (getTokenDetails coerce w' a)))
     = trace (snd (run (getTokenDetails coerce w a))).
Proof.
  intros Hd Hf Hf'. cbn zeta.
  unfold run, getTokenDetails, new_PublicKey.
  exec.
  cbn [with_price_answer validPublicKey rpc_getMint metaplex_findByMint
       axios_get].
  rewrite String.eqb_refl, endpoints_differ, Hd, Hf, Hf'.
  split; split_on_answers; reflexivity.
Qed.

End StageFacts.

(** ** The model of numbers on known values *)

Example one_tenth_is_rounded :
  BigNumber.toNumber (BigNumber.Finite false 1 (-1))
  = S754_finite false 7205759403792794 (-56).
Proof. vm_compute. reflexivity. Qed.

Example shortest_digits_of_a_sum :
  BigNumber.toFixed
    (BigNumber.ofNumber
       (SFadd JSNumber.prec JSNumber.emax
          (BigNumber.toNumber (BigNumber.Finite false 1 (-1)))
          (BigNumber.toNumber (BigNumber.Finite false 2 (-1)))))
  = "0.30000000000000004".
Proof. vm_compute. reflexivity. Qed.

Example smallest_number_reads_back :
  BigNumber.ofNumber (S754_finite false 1 (-1074))
  = BigNumber.Finite false 5 (-324).
Proof. vm_compute. reflexivity. Qed.

Example largest_number_reads_back :
  BigNumber.ofNumber (S754_finite false 9007199254740991 971)
  = BigNumber.Finite false 17976931348623157 292
  /\ BigNumber.leading 17976931348623157 292 = 308%Z.
Proof. vm_compute. split; reflexivity. Qed.

Example overflow_to_infinity :
  BigNumber.toNumber (BigNumber.Finite false 18 307) = S754_infinity false.
Proof. vm_compute. reflexivity. Qed.

Example numbers_stay_canonical :
  JSNumber.valid (BigNumber.toNumber (BigNumber.Finite false 25 (-1))) = true
  /\ JSNumber.valid (JSNumber.ofZ 9007199254740993) = true.
Proof. split; vm_compute; reflexivity. Qed.

Example grouping_keeps_the_fraction :
  BigNumber.toFormat (BigNumber.make false 123456789012345678 (-9))
  = "123,456,789.012345678".
Proof. vm_compute. reflexivity. Qed.

Example healthy_run_calls :
  trace (snd (run (getTokenDetails Sample.coerce Sample.healthy Sample.address)))
  = [RpcGetMint Sample.address;
     RpcFindByMint Sample.address;
     HttpGet "https://example.org/sol.json" None;
     HttpGet (API_ENDPOINT Sample.address) (Some HEADERS);
     HttpGet (OVERVIEW_ENDPOINT Sample.address) (Some HEADERS)].
Proof. vm_compute. reflexivity. Qed.

Example blank_fields_are_filled :
  match fst (run (getTokenDetails Sample.coerce Sample.blank_onchain
                    Sample.address)) with
  | Normal (Some r) =>
      name r = JString "Off-chain SOL" /\ symbol r = JString "XSOL"
      /\ imageURL r = JString "https://example.org/sol.png"
  | _ => False
  end.
Proof. vm_compute. repeat split. Qed.

Example garbled_document_is_dropped :
  match fst (run (getTokenDetails Sample.coerce Sample.json_garbled
                    Sample.address)) with
  | Normal (Some r) =>
      name r = JString "Wrapped SOL" /\ symbol r = JString "SOL"
      /\ imageURL r = JUndefined
  | _ => False
  end.
Proof. vm_compute. repeat split. Qed.

Example main_reports_the_details :
  match fst (run (main Sample.coerce Sample.healthy (Some Sample.address))) with
  | Normal (Report r) =>
      totalSupply r = "1,000,000"
      /\ marketcCap r = JNumber (JSNumber.ofZ 2500000)
  | _ => False
  end
  /\ fst (run (main Sample.coerce Sample.healthy None)) = Normal (Exit 1)
  /\ fst (run (main Sample.coerce Sample.mint_down (Some Sample.address)))
     = Normal NoDetails.
Proof. vm_compute. repeat split. Qed.


Example range_of_exponents :
  convertToDecimal 1 10000000 = BigNumber.Finite false 1 (-10000000)
  /\ convertToDecimal 1 10000001 = BigNumber.Finite false 0 0
  /\ convertToDecimal 1 (-10000001) = BigNumber.Infinity false.
Proof. repeat split. Qed.

Example rejected_price_stops_the_market_stage :
  match run (getTokenDetails Sample.coerce Sample.unprintable_price
               Sample.address) with
  | (Normal (Some r), s) =>
      price r = JObject [("toString", JString "2.5")]
      /\ marketcCap r = JUndefined
      /\ liquidityUsd r = JUndefined
      /\ trace s
         = [RpcGetMint Sample.address;
            RpcFindByMint Sample.address;
            HttpGet "https://example.org/sol.json" None;
            HttpGet (API_ENDPOINT Sample.address) (Some HEADERS)]
  | _ => False
  end.
Proof. vm_compute. repeat split. Qed.

(** From a run that returned [r]: the mint that was found and the states
    between the stages. *)
Ltac open_result H :=
  let Hv := fresh "Hv" in
  let mi := fresh "mi" in
  let Hm := fresh "Hm" in
  let s1 := fresh "s1" in
  let s2 := fresh "s2" in
  let E1 := fresh "E1" in
  let E2 := fresh "E2" in
  let R := fresh "R" in
  lazymatch type of H with
  | run (getTokenDetails ?c ?w ?a) = _ =>
      destruct (getTokenDetails_returned c w a _ _ H) as (Hv & mi & Hm);
      destruct (getTokenDetails_returns c w a mi Hv Hm)
        as (s1 & s2 & E1 & E2 & R);
      rewrite R in H; injection H as <- <-
  end.

(** ** The product of line 129 *)

Section ProductFacts.

Variable coerce : JSValue -> Error + BigNumber.t.

(** The constructor reads a JS number without throwing. *)
Lemma multipliedBy_number x p :
  multipliedBy coerce x (JNumber p)
  = inr (BigNumber.times x (BigNumber.ofNumber p)).
Proof. reflexivity. Qed.

(** The supply of a mint times a finite JS number: the product is exact,
    well inside the range. *)
Lemma product_exact (mi : MintInfo) p qp :
  BigNumber.value (BigNumber.ofNumber p) = Some qp ->
  exists q,
    BigNumber.value
      (BigNumber.times (convertToDecimal (supply mi) (mint_decimals mi))
         (BigNumber.ofNumber p)) = Some q
    /\ q == qp * (inject_Z (supply mi) / inject_Z (10 ^ mint_decimals mi)).
Proof.
  intros Hq.
  destruct (ConvertFacts.mint_bounds mi) as ((Hd & _) & _).
  destruct (ConvertFacts.convertToDecimal_mint mi)
    as (c & e & -> & Hc & Hz & Hl).
  destruct (BigNumber.ofNumber p) as [| |b c' e'] eqn:Ep;
    try discriminate Hq.
  injection Hq as <-.
  pose proof (BigNumberFacts.ofNumber_bounded _ _ _ _ Ep) as Hb.
  destruct (BigNumberFacts.times_exact false c e b c' e')
    as (c2 & e2 & -> & Hv & _).
  { destruct (N.eq_dec c 0) as [|Hn]; [left; assumption|].
    destruct Hb as [Hb|Hb]; [right; left; assumption|].
    right. right. specialize (Hl Hn).
    unfold BigNumber.NUMBER_EXP, BigNumber.MIN_EXP, BigNumber.MAX_EXP in *.
    lia. }
  eexists. split; [reflexivity|].
  rewrite Hv, Hc, Qpower_opp, (Zpower_Qpower 10 _ Hd).
  unfold Qdiv. change (inject_Z 10) with 10%Q. ring.
Qed.

End ProductFacts.

(** ** The specification, statement by statement *)

Section Specification.

Variable coerce : JSValue -> Error + BigNumber.t.
Variable w : World.

(** C1.  If the required mint lookup fails, [getTokenDetails] returns
    [null], whatever the metadata and market sources would have answered;
    they are not even asked. *)
Theorem mint_lookup_failure_returns_null a e :
  rpc_getMint w a = inl e ->
  fst (run (getTokenDetails coerce w a)) = Normal None
  /\ trace (snd (run (getTokenDetails coerce w a)))
     = if validPublicKey w a then [RpcGetMint a] else [].
Proof.
  intros H. unfold run, getTokenDetails, try_catch, bind, new_PublicKey.
  destruct (validPublicKey w a); [|split; reflexivity].
  unfold ret at 1, await. rewrite H. split; reflexivity.
Qed.

(** C2, as amended.  For every raw amount of at most 10,000,001 digits and
    every number of decimals [0 <= d <= 10,000,000],
    [convertToDecimal raw d] is the rational [raw / 10^d], exactly; with
    more decimals than that (up to the largest argument [shiftedBy] takes)
    the result is a zero; and raw = 123456789012345678 with d = 9 prints as
    123456789.012345678. *)
Theorem convertToDecimal_exact raw d :
  (Digits.ndigits (Z.abs_N raw) <= BigNumber.MAX_EXP + 1)%Z ->
  (0 <= d <= JSNumber.MAX_SAFE_INTEGER)%Z ->
  ((d <= BigNumber.MAX_EXP)%Z ->
   exists q, BigNumber.value (convertToDecimal raw d) = Some q
             /\ q == inject_Z raw / inject_Z (10 ^ d))
  /\ ((BigNumber.MAX_EXP < d)%Z ->
      convertToDecimal raw d = BigNumber.Finite (raw <? 0)%Z 0 0)
  /\ BigNumber.toFixed (convertToDecimal 123456789012345678 9)
     = "123456789.012345678".
Proof.
  intros Hn (Hd & _). split; [|split; [|vm_compute; reflexivity]].
  - intros Hmax.
    destruct (ConvertFacts.convertToDecimal_finite raw d)
      as (c & e & -> & Hv & _); [lia|exact Hn|].
    eexists. split; [reflexivity|].
    rewrite Hv, Qpower_opp, (Zpower_Qpower 10 d Hd).
    reflexivity.
  - intros Hmax. apply ConvertFacts.convertToDecimal_underflow; assumption.
Qed.


(** C4, as amended.  If the mint lookup succeeds and the metadata lookup
    fails, [getTokenDetails] still returns an object: name and symbol hold
    the placeholder strings of the result literal, the image is unset,
    and decimals, raw supply and formatted supply come from the mint. *)
Theorem metadata_failure_gives_placeholders a mi e :
  validPublicKey w a = true ->
  rpc_getMint w a = inr mi ->
  metaplex_findByMint w a = inl e ->
  exists r s,
    run (getTokenDetails coerce w a) = (Normal (Some r), s)
    /\ name r = JString "N?A"
    /\ symbol r = JString "N/A"
    /\ unset (imageURL r)
    /\ decimals r = mint_decimals mi
    /\ totalSupplyRaw r = supply mi
    /\ totalSupply r
       = BigNumber.toFormat
           (convertToDecimal (supply mi) (mint_decimals mi)).
Proof.
  intros Hv Hm He.
  destruct (getTokenDetails_returns coerce w a mi Hv Hm)
    as (s1 & s2 & E1 & E2 & R).
  destruct (metadata_lookup_failed w _ _ _ _ _ He E1) as (N1 & S1 & I1).
  destruct (market_frame coerce w _ _ _ _ _ _ E2) as (N2 & S2 & I2).
  eexists. eexists. split; [exact R|].
  cbn [name symbol imageURL decimals totalSupplyRaw totalSupply result_of].
  unfold unset. rewrite N2, S2, I2, N1, S1, I1.
  repeat split; reflexivity.
Qed.

(** C5, as amended.  If the on-chain metadata lookup succeeds and the
    fetch of the JSON document fails or gives a malformed body, a name or a
    symbol that the on-chain record gives non-empty reaches the result
    unchanged, an empty one is replaced by the placeholder of the result
    literal, and the image stays unset. *)
Theorem json_failure_keeps_onchain_fields a mi nft :
  validPublicKey w a = true ->
  rpc_getMint w a = inr mi ->
  metaplex_findByMint w a = inr nft ->
  json_unusable (axios_get w (nft_uri nft) None) = true ->
  exists r s,
    run (getTokenDetails coerce w a) = (Normal (Some r), s)
    /\ (nft_name nft <> "" -> name r = JString (nft_name nft))
    /\ (nft_symbol nft <> "" -> symbol r = JString (nft_symbol nft))
    /\ name r = JS.or (JString (nft_name nft)) (JString "N?A")
    /\ symbol r = JS.or (JString (nft_symbol nft)) (JString "N/A")
    /\ unset (imageURL r).
Proof.
  intros Hv Hm Hn Hj.
  destruct (getTokenDetails_returns coerce w a mi Hv Hm)
    as (s1 & s2 & E1 & E2 & R).
  destruct (metadata_json_dropped w _ _ _ _ _ Hn Hj E1) as (N1 & S1 & I1).
  destruct (market_frame coerce w _ _ _ _ _ _ E2) as (N2 & S2 & I2).
  eexists. eexists. split; [exact R|].
  cbn [name symbol imageURL result_of].
  unfold unset. rewrite N2, S2, I2, N1, S1, I1.
  unfold JS.or. cbn [JS.truthy].
  repeat split; try reflexivity; intros N; apply String.eqb_neq in N;
    rewrite N; reflexivity.
Qed.

(** C6.  A name or symbol that the on-chain record gives non-empty is
    never replaced by the JSON document; the document only fills the
    fields the record left empty. *)
Theorem onchain_fields_not_overwritten a mi nft :
  validPublicKey w a = true ->
  rpc_getMint w a = inr mi ->
  metaplex_findByMint w a = inr nft ->
  exists r s,
    run (getTokenDetails coerce w a) = (Normal (Some r), s)
    /\ (nft_name nft <> "" -> name r = JString (nft_name nft))
    /\ (nft_symbol nft <> "" -> symbol r = JString (nft_symbol nft))
    /\ (forall fields,
          nft_uri nft <> "" ->
          axios_get w (nft_uri nft) None = inr (JObject fields) ->
          (nft_name nft = "" ->
           JS.truthy (JS.lookup "name" fields) = true ->
           name r = JS.lookup "name" fields)
          /\ (nft_symbol nft = "" ->
              JS.truthy (JS.lookup "symbol" fields) = true ->
              symbol r = JS.lookup "symbol" fields)).
Proof.
  intros Hv Hm Hn.
  destruct (getTokenDetails_returns coerce w a mi Hv Hm)
    as (s1 & s2 & E1 & E2 & R).
  destruct (metadata_onchain_kept w _ _ _ _ _ Hn E1) as (N1 & S1).
  destruct (market_frame coerce w _ _ _ _ _ _ E2) as (N2 & S2 & _).
  eexists. eexists. split; [exact R|].
  cbn [name symbol result_of]. rewrite N2, S2. unfold JS.or.
  split; [|split; [|intros fields Hu Hj; split]].
  - intros N. rewrite (N1 N). cbn [JS.truthy].
    apply String.eqb_neq in N. rewrite N. reflexivity.
  - intros N. rewrite (S1 N). cbn [JS.truthy].
    apply String.eqb_neq in N. rewrite N. reflexivity.
  - intros N T.
    destruct (metadata_gap_filled w _ _ _ _ _ _ Hn Hu Hj E1) as (G & _ & _).
    rewrite (G N T), T. reflexivity.
  - intros N T.
    destruct (metadata_gap_filled w _ _ _ _ _ _ Hn Hu Hj E1) as (_ & G & _).
    rewrite (G N T), T. reflexivity.
Qed.

(** C7.  With decimals = 6 and a raw supply of 1_000_000_000_000 the
    result's [totalSupply] is the string 1,000,000. *)
Theorem formatted_total_supply_example a mi :
  validPublicKey w a = true ->
  rpc_getMint w a = inr mi ->
  mint_decimals mi = 6%Z ->
  supply mi = 1000000000000%Z ->
  exists r s,
    run (getTokenDetails coerce w a) = (Normal (Some r), s)
    /\ totalSupply r = "1,000,000".
Proof.
  intros Hv Hm Hd Hs.
  destruct (getTokenDetails_returns coerce w a mi Hv Hm)
    as (s1 & s2 & E1 & E2 & R).
  eexists. eexists. split; [exact R|].
  cbn [totalSupply result_of]. rewrite Hd, Hs. vm_compute. reflexivity.
Qed.

(** C8.  On an address that fails the format validation the pipeline
    gives up at once: [getTokenDetails] returns [null], [main] exits with
    code 1, and neither issues a single network call. *)
Theorem invalid_address_no_network_call a :
  validPublicKey w a = false ->
  fst (run (getTokenDetails coerce w a)) = Normal None
  /\ trace (snd (run (getTokenDetails coerce w a))) = []
  /\ fst (run (main coerce w (Some a))) = Normal (Exit 1)
  /\ trace (snd (run (main coerce w (Some a)))) = [].
Proof.
  intros H.
  unfold run, main, getTokenDetails, try_catch, bind, new_PublicKey.
  rewrite H. destruct (negb (JS.truthy (JString a))); repeat split.
Qed.

(** C9, as amended.  The raw supply stays an integer until
    [convertToDecimal], and the product of the decimal supply by the
    price (read by bignumber.js as the shortest decimal of that number)
    is exact; [marketcCap] is that product converted once to a JS number
    by [toNumber]. *)
Theorem marketCap_rounded_once a r s p qp :
  run (getTokenDetails coerce w a) = (Normal (Some r), s) ->
  price r = JNumber p ->
  BigNumber.value (BigNumber.ofNumber p) = Some qp ->
  (0 <= decimals r)%Z ->
  exists product q,
    marketcCap r = JNumber (BigNumber.toNumber product)
    /\ BigNumber.value product = Some q
    /\ q == qp * (inject_Z (totalSupplyRaw r) / inject_Z (10 ^ decimals r)).
Proof.
  intros H Hp Hq Hd. open_result H.
  pose proof (market_cap_formula coerce w _ _ _ _ _ _ E2) as F.
  cbn [price marketcCap totalSupplyRaw decimals result_of] in *.
  rewrite Hp in F. cbn [JS.defined] in F.
  rewrite multipliedBy_number in F. rewrite F.
  destruct (product_exact mi p qp Hq) as (q & V & E).
  eexists. exists q. split; [reflexivity|]. split; [exact V|exact E].
Qed.

(** C10.  When the price endpoint answers and the nested value is 0 or
    any other falsy value, the result has no price and no market cap, and
    nothing in the result or in the calls made tells one falsy report
    from another (a zero from a missing value). *)
Theorem falsy_price_leaves_price_unset a r s data :
  run (getTokenDetails coerce w a) = (Normal (Some r), s) ->
  axios_get w (API_ENDPOINT a) (Some HEADERS) = inr data ->
  JS.truthy (JS.get_opt (JS.get_opt data "data") "value") = false ->
  unset (price r)
  /\ unset (marketcCap r)
  /\ (forall data',
        JS.truthy (JS.get_opt (JS.get_opt data' "data") "value") = false ->
        let w' := with_price_answer w a (inr data') in
        fst (run (getTokenDetails coerce w' a)) = Normal (Some r)
        /\ trace (snd (run (getTokenDetails coerce w' a))) = trace s).
Proof.
  intros H Hd Hf. split; [|split].
  - destruct (getTokenDetails_returned coerce w a r s H) as (Hv & mi & Hm).
    destruct (getTokenDetails_returns coerce w a mi Hv Hm)
      as (s1 & s2 & E1 & E2 & R).
    rewrite R in H. injection H as <- <-.
    pose proof (market_price coerce w _ _ _ _ _ _ E2) as P.
    cbn zeta in P. rewrite Hd in P. cbn [reported_price] in P.
    rewrite Hf in P. exact P.
  - destruct (getTokenDetails_returned coerce w a r s H) as (Hv & mi & Hm).
    destruct (getTokenDetails_returns coerce w a mi Hv Hm)
      as (s1 & s2 & E1 & E2 & R).
    rewrite R in H. injection H as <- <-.
    pose proof (market_cap_formula coerce w _ _ _ _ _ _ E2) as F.
    pose proof (market_price coerce w _ _ _ _ _ _ E2) as P.
    cbn zeta in P. rewrite Hd in P. cbn [reported_price] in P.
    rewrite Hf in P.
    cbn [marketcCap result_of]. unfold unset. rewrite F, P. reflexivity.
  - intros data' Hf'.
    destruct (falsy_price_answers_alike coerce w a data data' Hd Hf Hf')
      as (A & B).
    cbn zeta. rewrite A, B, H. split; reflexivity.
Qed.

End Specification.

(** ** Each property on a concrete run *)

(** Evaluate the run named in the goal; [R] records what it gave. *)
Ltac evaluate_run R :=
  match goal with
  | |- context [run ?m = _] =>
      let c := fresh "c" in
      let s := fresh "s" in
      let R' := fresh "R" in
      destruct (run m) as [c s] eqn:R;
      pose proof R as R'; vm_compute in R';
      injection R' as <- <-
  end.

Lemma mint_lookup_failure_returns_null_witness :
  rpc_getMint Sample.mint_down Sample.address = inl Sample.down
  /\ fst (run (getTokenDetails Sample.coerce Sample.mint_down Sample.address))
     = Normal None
  /\ trace (snd (run (getTokenDetails Sample.coerce Sample.mint_down
                        Sample.address)))
     = [RpcGetMint Sample.address].
Proof.
  split; [reflexivity|].
  exact (mint_lookup_failure_returns_null Sample.coerce Sample.mint_down
           Sample.address Sample.down eq_refl).
Defined.

Lemma convertToDecimal_exact_witness :
  (Digits.ndigits (Z.abs_N 1500) <= BigNumber.MAX_EXP + 1)%Z
  /\ (0 <= 2 <= JSNumber.MAX_SAFE_INTEGER)%Z
  /\ (2 <= BigNumber.MAX_EXP)%Z
  /\ (exists q, BigNumber.value (convertToDecimal 1500 2) = Some q
                /\ q == inject_Z 1500 / inject_Z (10 ^ 2)).
Proof.
  assert (Hn : (Digits.ndigits (Z.abs_N 1500) <= BigNumber.MAX_EXP + 1)%Z)
    by (vm_compute; discriminate).
  assert (Hd : (0 <= 2 <= JSNumber.MAX_SAFE_INTEGER)%Z)
    by (split; vm_compute; discriminate).
  assert (Hm : (2 <= BigNumber.MAX_EXP)%Z) by (vm_compute; discriminate).
  split; [exact Hn|]. split; [exact Hd|]. split; [exact Hm|].
  exact (proj1 (convertToDecimal_exact 1500 2 Hn Hd) Hm).
Defined.


Lemma metadata_failure_gives_placeholders_witness :
  validPublicKey Sample.no_metadata Sample.address = true
  /\ metaplex_findByMint Sample.no_metadata Sample.address = inl Sample.down
  /\ exists r s,
       run (getTokenDetails Sample.coerce Sample.no_metadata Sample.address)
       = (Normal (Some r), s)
       /\ name r = JString "N?A"
       /\ symbol r = JString "N/A"
       /\ unset (imageURL r)
       /\ decimals r = 6%Z
       /\ totalSupplyRaw r = 1000000000000%Z
       /\ totalSupply r = "1,000,000".
Proof.
  split; [reflexivity|]. split; [reflexivity|].
  exact (metadata_failure_gives_placeholders Sample.coerce Sample.no_metadata
           Sample.address (Sample.mint 6 1000000000000) Sample.down
           eq_refl eq_refl eq_refl).
Defined.

Lemma json_failure_keeps_onchain_fields_witness :
  json_unusable (axios_get Sample.json_down (nft_uri Sample.nft) None) = true
  /\ exists r s,
       run (getTokenDetails Sample.coerce Sample.json_down Sample.address)
       = (Normal (Some r), s)
       /\ name r = JString "Wrapped SOL"
       /\ symbol r = JString "SOL"
       /\ unset (imageURL r).
Proof.
  split; [reflexivity|].
  destruct (json_failure_keeps_onchain_fields Sample.coerce Sample.json_down
              Sample.address (Sample.mint 6 1000000000000) Sample.nft
              eq_refl eq_refl eq_refl eq_refl)
    as (r & s & R & _ & _ & N & S & I).
  exists r, s. repeat split; assumption.
Defined.

Lemma onchain_fields_not_overwritten_witness :
  axios_get Sample.healthy (nft_uri Sample.nft) None = inr Sample.document
  /\ exists r s,
       run (getTokenDetails Sample.coerce Sample.healthy Sample.address)
       = (Normal (Some r), s)
       /\ name r = JString "Wrapped SOL"
       /\ symbol r = JString "SOL".
Proof.
  split; [reflexivity|].
  destruct (onchain_fields_not_overwritten Sample.coerce Sample.healthy
              Sample.address (Sample.mint 6 1000000000000) Sample.nft
              eq_refl eq_refl eq_refl)
    as (r & s & R & N & S & _).
  exists r, s. repeat split;
    [exact R | apply N; discriminate | apply S; discriminate].
Defined.

Lemma formatted_total_supply_example_witness :
  rpc_getMint Sample.healthy Sample.address
  = inr (Sample.mint 6 1000000000000)
  /\ exists r s,
       run (getTokenDetails Sample.coerce Sample.healthy Sample.address)
       = (Normal (Some r), s)
       /\ totalSupply r = "1,000,000".
Proof.
  split; [reflexivity|].
  exact (formatted_total_supply_example Sample.coerce Sample.healthy
           Sample.address (Sample.mint 6 1000000000000)
           eq_refl eq_refl eq_refl eq_refl).
Defined.

Lemma invalid_address_no_network_call_witness :
  validPublicKey Sample.healthy "not-an-address" = false
  /\ fst (run (getTokenDetails Sample.coerce Sample.healthy "not-an-address"))
     = Normal None
  /\ trace (snd (run (getTokenDetails Sample.coerce Sample.healthy
                        "not-an-address"))) = []
  /\ fst (run (main Sample.coerce Sample.healthy (Some "not-an-address")))
     = Normal (Exit 1)
  /\ trace (snd (run (main Sample.coerce Sample.healthy
                        (Some "not-an-address")))) = [].
Proof.
  split; [reflexivity|].
  exact (invalid_address_no_network_call Sample.coerce Sample.healthy
           "not-an-address" eq_refl).
Defined.

Lemma marketCap_rounded_once_witness :
  exists r s product q,
    run (getTokenDetails Sample.coerce Sample.odd_supply Sample.address)
    = (Normal (Some r), s)
    /\ price r = Sample.num 1 0
    /\ marketcCap r = JNumber (BigNumber.toNumber product)
    /\ BigNumber.value product = Some q
    /\ q == 1 * (9007199254740993 / 1).
Proof.
  evaluate_run R.
  destruct (marketCap_rounded_once Sample.coerce Sample.odd_supply
              Sample.address _ _ (BigNumber.toNumber (BigNumber.Finite false 1 0))
              1 R eq_refl eq_refl ltac:(cbn; lia))
    as (product & q & M & V & E).
  eexists. eexists. exists product, q.
  split; [reflexivity|]. split; [reflexivity|].
  split; [exact M|]. split; [exact V|]. exact E.
Defined.

Lemma falsy_price_leaves_price_unset_witness :
  exists r s,
    run (getTokenDetails Sample.coerce Sample.zero_price Sample.address)
    = (Normal (Some r), s)
    /\ JS.truthy (Sample.num 0 0) = false
    /\ unset (price r)
    /\ unset (marketcCap r).
Proof.
  evaluate_run R.
  destruct (falsy_price_leaves_price_unset Sample.coerce Sample.zero_price
              Sample.address _ _ (Sample.price_body (Sample.num 0 0))
              R eq_refl eq_refl)
    as (P & M & _).
  eexists. eexists. split; [reflexivity|]. split; [reflexivity|].
  split; assumption.
Defined.

(** ** Where the wording fails *)

(** C2 as worded: one raw unit with 10,000,001 decimals is not zero, but
    its conversion is: the power of ten falls below the exponent range of
    bignumber.js. *)
Lemma convertToDecimal_underflows : ~ convertToDecimal_exact_everywhere.
Proof.
  intros H.
  assert (Hd : (BigNumber.MAX_EXP < 10000001)%Z) by reflexivity.
  destruct (H 1%Z 10000001%Z) as (q & Hq & Hv); [discriminate|discriminate|].
  exact (ConvertFacts.tiny_amount_is_not_exact 10000001 q Hd Hq Hv).
Qed.


(** C4 as worded: with the metadata lookup down, the name of the result is
    the string N?A, which is neither unset nor empty. *)
Lemma metadata_failure_fields_not_empty :
  ~ metadata_failure_leaves_fields_empty.
Proof.
  intros H.
  destruct (H Sample.coerce Sample.no_metadata Sample.address
              (Sample.mint 6 1000000000000) Sample.down
              eq_refl eq_refl eq_refl)
    as (r & s & R & N & _).
  vm_compute in R. injection R as <- _.
  destruct N as [N|N]; discriminate N.
Qed.

(** C5 as worded: an on-chain record with an empty name and symbol, and a
    document that cannot be fetched: the result has the placeholders, not
    the empty on-chain strings. *)
Lemma empty_onchain_name_not_preserved :
  ~ json_failure_preserves_onchain_fields.
Proof.
  intros H.
  destruct (H Sample.coerce Sample.blank_json_down Sample.address
              (Sample.mint 6 1000000000000)
              {| nft_name := ""; nft_symbol := ""; nft_uri := nft_uri Sample.nft |}
              eq_refl eq_refl eq_refl eq_refl)
    as (r & s & R & N & _).
  vm_compute in R. injection R as <- _.
  discriminate N.
Qed.

(** C9 as worded: a supply of 2^53 + 1 units at a price of 1 gives a market
    cap of 2^53, one less than the product. *)
Lemma marketCap_rounding_error : ~ marketCap_is_exact.
Proof.
  intros H.
  destruct (run (getTokenDetails Sample.coerce Sample.odd_supply
                   Sample.address)) as [c s] eqn:R.
  pose proof R as R'. vm_compute in R'. injection R' as <- <-.
  destruct (H Sample.coerce Sample.odd_supply Sample.address _ _
              (BigNumber.toNumber (BigNumber.Finite false 1 0)) _
              R eq_refl eq_refl ltac:(cbn; lia))
    as (m & qm & M & Q & E).
  vm_compute in M. injection M as <-.
  vm_compute in Q. injection Q as <-.
  revert E. apply Qeq_bool_neq. vm_compute. reflexivity.
Qed.

(** * Beyond the specification *)

(** ** What the code guarantees besides *)

Lemma or_truthy a b : JS.truthy b = true -> JS.truthy (JS.or a b) = true.
Proof. intros H. unfold JS.or. destruct (JS.truthy a) eqn:E; assumption. Qed.

Lemma calls_after_mint_distinct coerce w a :
  NoDup (calls_after_mint coerce w a)
  /\ (List.length (calls_after_mint coerce w a) <= 5)%nat.
Proof.
  assert (D : HttpGet (API_ENDPOINT a) (Some HEADERS)
              <> HttpGet (OVERVIEW_ENDPOINT a) (Some HEADERS)).
  { intros E.
    apply (f_equal (fun c => match c with HttpGet u _ => u | _ => "" end))
      in E.
    symmetry in E. apply String.eqb_eq in E.
    rewrite endpoints_differ in E. discriminate E. }
  unfold calls_after_mint, document_calls, overview_calls.
  destruct (product_fails coerce w a);
    (destruct (metaplex_findByMint w a) as [e|nft];
     [|destruct (JS.truthy (JString (nft_uri nft)))]);
    cbn [app List.length]; (split; [|lia]);
    repeat (constructor;
            [cbn [In]; intuition (first [discriminate | congruence])|]);
    constructor.
Qed.

Lemma getTokenDetails_normal coerce w a :
  exists r s, run (getTokenDetails coerce w a) = (Normal r, s).
Proof.
  destruct (validPublicKey w a) eqn:Hv.
  - destruct (rpc_getMint w a) as [e|mi] eqn:Hm.
    + unfold run, getTokenDetails, try_catch, bind, new_PublicKey.
      rewrite Hv. unfold ret at 1, await. rewrite Hm.
      eexists. eexists. reflexivity.
    + destruct (getTokenDetails_returns coerce w a mi Hv Hm)
        as (s1 & s2 & _ & _ & R).
      eexists. eexists. exact R.
  - unfold run, getTokenDetails, try_catch, bind, new_PublicKey.
    rewrite Hv. eexists. eexists. reflexivity.
Qed.

Section Beyond.

Variable coerce : JSValue -> Error + BigNumber.t.
Variable w : World.

(** X1.  [getTokenDetails] never lets an exception out, and it returns an
    object exactly when the address is well formed and the mint is found. *)
Theorem getTokenDetails_never_throws a :
  exists r s,
    run (getTokenDetails coerce w a) = (Normal r, s)
    /\ (r <> None <->
        validPublicKey w a = true /\ exists mi, rpc_getMint w a = inr mi).
Proof.
  destruct (validPublicKey w a) eqn:Hv.
  - destruct (rpc_getMint w a) as [e|mi] eqn:Hm.
    + unfold run, getTokenDetails, try_catch, bind, new_PublicKey.
      rewrite Hv. unfold ret at 1, await. rewrite Hm.
      eexists. eexists. split; [reflexivity|].
      split; [congruence|]. intros (_ & mi & [=]).
    + destruct (getTokenDetails_returns coerce w a mi Hv Hm)
        as (s1 & s2 & _ & _ & R).
      eexists. eexists. split; [exact R|].
      split; [|discriminate]. intros _. split; [reflexivity|].
      exists mi. reflexivity.
  - unfold run, getTokenDetails, try_catch, bind, new_PublicKey.
    rewrite Hv. eexists. eexists. split; [reflexivity|].
    split; [congruence|]. intros ([=] & _).
Qed.

(** X2.  In every returned object the address is the argument, and
    decimals, raw supply, formatted supply and the two authorities are those
    of the mint account, whatever the other sources answered. *)
Theorem chain_fields_come_from_the_mint a r s :
  run (getTokenDetails coerce w a) = (Normal (Some r), s) ->
  exists mi,
    rpc_getMint w a = inr mi
    /\ address r = a
    /\ decimals r = mint_decimals mi
    /\ totalSupplyRaw r = supply mi
    /\ totalSupply r
       = BigNumber.toFormat
           (convertToDecimal (supply mi) (mint_decimals mi))
    /\ mintAuthority r = base58_or_null (mint_mintAuthority mi)
    /\ freezeAuthority r = base58_or_null (mint_freezeAuthority mi).
Proof.
  intros H. open_result H. exists mi. repeat split; try reflexivity.
  exact Hm.
Qed.

(** X3.  Once the mint is found the calls are, in this order: the mint
    lookup, the metadata lookup, the GET of the document when the record has
    a pointer, the price endpoint and, unless the market cap could not be
    computed from the price that was set (line 129 threw), the overview
    endpoint.  The price endpoint is asked even when every metadata step
    failed. *)
Theorem calls_in_order a mi :
  validPublicKey w a = true ->
  rpc_getMint w a = inr mi ->
  trace (snd (run (getTokenDetails coerce w a)))
  = calls_after_mint coerce w a
  /\ (product_fails coerce w a = false ->
      trace (snd (run (getTokenDetails coerce w a)))
      = ([RpcGetMint a; RpcFindByMint a] ++ document_calls w a
         ++ [HttpGet (API_ENDPOINT a) (Some HEADERS);
             HttpGet (OVERVIEW_ENDPOINT a) (Some HEADERS)])%list)
  /\ (product_fails coerce w a = true ->
      trace (snd (run (getTokenDetails coerce w a)))
      = ([RpcGetMint a; RpcFindByMint a] ++ document_calls w a
         ++ [HttpGet (API_ENDPOINT a) (Some HEADERS)])%list).
Proof.
  intros Hv Hm.
  destruct (getTokenDetails_returns coerce w a mi Hv Hm)
    as (s1 & s2 & E1 & E2 & R).
  rewrite R. cbn [snd].
  rewrite (market_trace coerce w _ _ _ _ _ _ E2).
  rewrite (metadata_trace w _ _ _ _ E1).
  unfold calls_after_mint, overview_calls, after_mint.
  cbn [trace initial app].
  split; [reflexivity|].
  split; intros ->; reflexivity.
Qed.

(** X4.  No run issues the same call twice, and none issues more than
    five: nothing is retried. *)
Theorem no_call_is_repeated a :
  NoDup (trace (snd (run (getTokenDetails coerce w a))))
  /\ (List.length (trace (snd (run (getTokenDetails coerce w a)))) <= 5)%nat.
Proof.
  destruct (validPublicKey w a) eqn:Hv.
  - destruct (rpc_getMint w a) as [e|mi] eqn:Hm.
    + unfold run, getTokenDetails, try_catch, bind, new_PublicKey.
      rewrite Hv. unfold ret at 1, await. rewrite Hm. cbn.
      split; [|lia]. repeat constructor. intros [].
    + destruct (getTokenDetails_returns coerce w a mi Hv Hm)
        as (s1 & s2 & E1 & E2 & R).
      rewrite R. cbn [snd].
      rewrite (market_trace coerce w _ _ _ _ _ _ E2).
      rewrite (metadata_trace w _ _ _ _ E1).
      unfold after_mint. cbn [trace initial app].
      exact (calls_after_mint_distinct coerce w a).
  - unfold run, getTokenDetails, try_catch, bind, new_PublicKey.
    rewrite Hv. cbn. split; [constructor|lia].
Qed.

(** X5.  The name and the symbol of a returned object are never
    [undefined], empty or otherwise falsy. *)
Theorem name_and_symbol_never_blank a r s :
  run (getTokenDetails coerce w a) = (Normal (Some r), s) ->
  JS.truthy (name r) = true /\ JS.truthy (symbol r) = true.
Proof.
  intros H. open_result H. cbn [name symbol result_of].
  split; apply or_truthy; reflexivity.
Qed.

(** X6.  Name and symbol follow one order of precedence: the on-chain
    value if truthy, else the document's value if truthy, else the
    placeholder; the image is whatever the document has under [image]. *)
Theorem descriptive_fields_by_precedence a r s :
  run (getTokenDetails coerce w a) = (Normal (Some r), s) ->
  name r
  = JS.or (JS.or (onchain_name w a) (JS.prop (offchain_document w a) "name"))
      (JString "N?A")
  /\ symbol r
     = JS.or (JS.or (onchain_symbol w a)
                (JS.prop (offchain_document w a) "symbol"))
         (JString "N/A")
  /\ imageURL r = JS.prop (offchain_document w a) "image".
Proof.
  intros H. open_result H. cbn [name symbol imageURL result_of].
  destruct (market_frame coerce w _ _ _ _ _ _ E2) as (-> & -> & ->).
  destruct (metadata_fallback w _ _ _ _ (JString "N?A") E1) as (-> & _).
  destruct (metadata_fallback w _ _ _ _ (JString "N/A") E1) as (_ & ->).
  rewrite (metadata_image w _ _ _ _ E1).
  repeat split.
Qed.

(** X7.  The price of the result is the value the endpoint reported when
    that value is truthy and unset otherwise (a failed request included);
    a price that is set is never falsy, and the market cap is a number
    whenever it is set. *)
Theorem price_is_the_truthy_report a r s :
  run (getTokenDetails coerce w a) = (Normal (Some r), s) ->
  let v := reported_price (axios_get w (API_ENDPOINT a) (Some HEADERS)) in
  price r = (if JS.truthy v then v else JUndefined)
  /\ (~ unset (price r) -> JS.truthy (price r) = true)
  /\ (unset (marketcCap r) \/ exists n, marketcCap r = JNumber n).
Proof.
  intros H. open_result H. cbn zeta. cbn [price marketcCap result_of].
  pose proof (market_price coerce w _ _ _ _ _ _ E2) as P. cbn zeta in P.
  pose proof (market_cap_formula coerce w _ _ _ _ _ _ E2) as F.
  split; [exact P|]. split.
  - rewrite P. unfold unset.
    destruct (JS.truthy (reported_price _)) eqn:T; [auto|congruence].
  - rewrite F. destruct (JS.defined _); [|left; reflexivity].
    destruct (multipliedBy _ _ _);
      [left; reflexivity|right; eexists; reflexivity].
Qed.

(** X8.  Unless line 129 threw, liquidity, holders and volume are each
    [data?.data?.k] of the overview answer, one independently of the
    others: unlike the price, a zero or [null] is passed on as it is, and
    all three are unset when the request fails.  When line 129 threw (a
    price is set and the [BigNumber] constructor rejects it) the overview
    is never asked and all three are unset. *)
Theorem overview_fields_as_reported a r s :
  run (getTokenDetails coerce w a) = (Normal (Some r), s) ->
  (product_fails coerce w a = false ->
   liquidityUsd r = overview_field w a "liquidity"
   /\ holders r = overview_field w a "holders"
   /\ volume24h r = overview_field w a "volume24h")
  /\ (product_fails coerce w a = true ->
      unset (liquidityUsd r) /\ unset (holders r) /\ unset (volume24h r)
      /\ ~ unset (price r) /\ unset (marketcCap r)
      /\ ~ In (HttpGet (OVERVIEW_ENDPOINT a) (Some HEADERS)) (trace s)).
Proof.
  intros H. open_result H.
  cbn [liquidityUsd holders volume24h price marketcCap result_of].
  destruct (market_overview coerce w _ _ _ _ _ _ E2) as (A & B).
  split; [exact A|]. intros Hf.
  destruct (B Hf) as (L & O & V). unfold unset.
  split; [exact L|]. split; [exact O|]. split; [exact V|].
  pose proof (market_cap_formula coerce w _ _ _ _ _ _ E2) as F.
  pose proof (product_fails_price coerce w _ _ _ _ _ _ E2) as P.
  rewrite Hf in P. unfold multipliedBy in F.
  destruct (JS.defined (store s2 Var.price)) eqn:D; [|discriminate P].
  destruct (new_BigNumber coerce (store s2 Var.price)); [|discriminate P].
  split; [intros U; rewrite U in D; discriminate D|].
  split; [exact F|].
  rewrite (market_trace coerce w _ _ _ _ _ _ E2).
  rewrite (metadata_trace w _ _ _ _ E1).
  unfold overview_calls. rewrite Hf.
  unfold after_mint, document_calls. cbn [trace initial app].
  intros I.
  destruct (metaplex_findByMint w a) as [e'|nft];
    [|destruct (JS.truthy (JString (nft_uri nft)))];
    cbn [app In] in I;
    repeat (destruct I as [I|I]; [discriminate I|]); exact I.
Qed.

(** X9.  The market fields and the formatted supply do not depend on the
    metadata sources: two worlds with the same mint and the same answers to
    the keyed requests give the same price, market cap, liquidity, holders
    and volume. *)
Theorem market_fields_ignore_metadata w' a r s :
  validPublicKey w' a = validPublicKey w a ->
  rpc_getMint w' a = rpc_getMint w a ->
  (forall url h, axios_get w' url (Some h) = axios_get w url (Some h)) ->
  run (getTokenDetails coerce w a) = (Normal (Some r), s) ->
  exists r' s',
    run (getTokenDetails coerce w' a) = (Normal (Some r'), s')
    /\ price r' = price r
    /\ marketcCap r' = marketcCap r
    /\ liquidityUsd r' = liquidityUsd r
    /\ holders r' = holders r
    /\ volume24h r' = volume24h r
    /\ totalSupply r' = totalSupply r.
Proof.
  intros Hv' Hm' Hx H. open_result H.
  rewrite Hv in Hv'. rewrite Hm in Hm'.
  destruct (getTokenDetails_returns coerce w' a mi Hv' Hm')
    as (s1' & s2' & E1' & E2' & R').
  eexists. eexists. split; [exact R'|].
  cbn [price marketcCap liquidityUsd holders volume24h totalSupply result_of].
  pose proof (market_price coerce w _ _ _ _ _ _ E2) as P.
  pose proof (market_price coerce w' _ _ _ _ _ _ E2') as P'.
  cbn zeta in P, P'. rewrite Hx in P'.
  rewrite (market_cap_formula coerce w _ _ _ _ _ _ E2).
  rewrite (market_cap_formula coerce w' _ _ _ _ _ _ E2').
  destruct (market_overview_raw coerce w _ _ _ _ _ _ E2) as (L & O & V & _).
  destruct (market_overview_raw coerce w' _ _ _ _ _ _ E2')
    as (L' & O' & V' & _).
  cbn zeta in L, O, V, L', O', V'. rewrite L, O, V, L', O', V'.
  unfold overview_field. rewrite !Hx, P, P'. repeat split.
Qed.

(** X10.  Name, symbol and image do not depend on the market provider:
    two worlds with the same mint, the same on-chain record and the same
    answers to the plain GET give the same three fields. *)
Theorem descriptive_fields_ignore_market w' a r s :
  validPublicKey w' a = validPublicKey w a ->
  rpc_getMint w' a = rpc_getMint w a ->
  metaplex_findByMint w' a = metaplex_findByMint w a ->
  (forall url, axios_get w' url None = axios_get w url None) ->
  run (getTokenDetails coerce w a) = (Normal (Some r), s) ->
  exists r' s',
    run (getTokenDetails coerce w' a) = (Normal (Some r'), s')
    /\ name r' = name r
    /\ symbol r' = symbol r
    /\ imageURL r' = imageURL r.
Proof.
  intros Hv' Hm' Hf Hx H. open_result H.
  rewrite Hv in Hv'. rewrite Hm in Hm'.
  destruct (getTokenDetails_returns coerce w' a mi Hv' Hm')
    as (s1' & s2' & E1' & E2' & R').
  eexists. eexists. split; [exact R'|].
  cbn [name symbol imageURL result_of].
  destruct (market_frame coerce w _ _ _ _ _ _ E2) as (-> & -> & ->).
  destruct (market_frame coerce w' _ _ _ _ _ _ E2') as (-> & -> & ->).
  destruct (metadata_fallback w _ _ _ _ (JString "N?A") E1) as (-> & _).
  destruct (metadata_fallback w _ _ _ _ (JString "N/A") E1) as (_ & ->).
  destruct (metadata_fallback w' _ _ _ _ (JString "N?A") E1') as (-> & _).
  destruct (metadata_fallback w' _ _ _ _ (JString "N/A") E1') as (_ & ->).
  rewrite (metadata_image w _ _ _ _ E1), (metadata_image w' _ _ _ _ E1').
  unfold onchain_name, onchain_symbol, offchain_document.
  rewrite Hf. destruct (metaplex_findByMint w a) as [e|nft]; [repeat split|].
  rewrite Hx. repeat split.
Qed.

(** X11.  On a non-empty, well-formed argument [main] adds nothing to
    [getTokenDetails]: it reports the object returned, or that nothing was
    found, and its second validation of the address issues no call. *)
Theorem main_reports_what_getTokenDetails_returns a :
  a <> "" ->
  validPublicKey w a = true ->
  fst (run (main coerce w (Some a)))
  = match fst (run (getTokenDetails coerce w a)) with
    | Normal (Some details) => Normal (Report details)
    | Normal None => Normal NoDetails
    | Throw e => Throw e
    end
  /\ trace (snd (run (main coerce w (Some a))))
     = trace (snd (run (getTokenDetails coerce w a))).
Proof.
  intros Ha Hv. apply String.eqb_neq in Ha.
  unfold run, main. cbn [JS.truthy]. rewrite Ha. cbn [negb].
  cbv beta iota zeta delta [bind try_catch new_PublicKey ret].
  rewrite Hv. cbv beta iota.
  destruct (getTokenDetails coerce w a initial) as [[[d|]|e] s'];
    split; reflexivity.
Qed.

(** X12.  [main] never throws; the only exit code is 1, and it exits
    exactly when the argument is missing, empty or malformed. *)
Theorem main_exit_code argv2 :
  exists outcome,
    fst (run (main coerce w argv2)) = Normal outcome
    /\ (forall code, outcome = Exit code -> code = 1%Z)
    /\ ((exists code, outcome = Exit code)
        <-> (argv2 = None \/ argv2 = Some ""
             \/ exists a, argv2 = Some a /\ validPublicKey w a = false)).
Proof.
  unfold run, main.
  destruct argv2 as [a|].
  2:{ eexists. split; [reflexivity|]. split; [intros code [= <-]; reflexivity|].
      split; [auto|intros _; eexists; reflexivity]. }
  cbn [JS.truthy].
  destruct (String.eqb_spec a "") as [E|Ha]; cbn [negb].
  - subst a. eexists. split; [reflexivity|].
    split; [intros code [= <-]; reflexivity|].
    split; [auto|intros _; eexists; reflexivity].
  - cbv beta iota zeta delta [bind try_catch new_PublicKey ret].
    destruct (validPublicKey w a) eqn:Hv; cbv beta iota.
    + destruct (getTokenDetails_normal coerce w a) as (r & s & R).
      unfold run in R. rewrite R.
      destruct r as [d|]; (eexists; split; [reflexivity|]);
        (split; [intros code [=]|]);
        (split; [intros (code & [=])|]);
        (intros [E|[E|(b & E & F)]]; [discriminate E|congruence|]);
        injection E as <-; congruence.
    + eexists. split; [reflexivity|].
      split; [intros code [= <-]; reflexivity|].
      split; [|intros _; eexists; reflexivity].
      intros _. right. right. exists a. auto.
Qed.

(** X13.  Within the exponent range of bignumber.js, zeros appended to
    the raw amount cancel against as many more decimals: the two
    conversions give the same [BigNumber], hence the same formatted string
    and the same number. *)
Theorem trailing_zeros_cancel raw d k :
  (0 <= k)%Z ->
  (0 <= d)%Z ->
  (d + k <= BigNumber.MAX_EXP)%Z ->
  (Digits.ndigits (Z.abs_N raw) + k <= BigNumber.MAX_EXP + 1)%Z ->
  convertToDecimal (raw * 10 ^ k) (d + k) = convertToDecimal raw d.
Proof.
  intros Hk Hd Hdk Hn.
  destruct (Z.eq_dec raw 0) as [->|Hr].
  { rewrite Z.mul_0_l, !ConvertFacts.convertToDecimal_zero by lia.
    reflexivity. }
  unfold convertToDecimal, BigNumber.shiftedBy.
  rewrite !ConvertFacts.BigNumber_of_bigint_make.
  rewrite !BigNumberFacts.make_one
    by (unfold BigNumber.MIN_EXP, BigNumber.MAX_EXP in *; lia).
  assert (Hp : (0 < 10 ^ k)%Z) by (apply DigitsFacts.pow10_pos; lia).
  replace (raw * 10 ^ k <? 0)%Z with (raw <? 0)%Z
    by (destruct (Z.ltb_spec raw 0), (Z.ltb_spec (raw * 10 ^ k) 0);
        try reflexivity; nia).
  replace (Z.abs_N (raw * 10 ^ k)) with (Z.abs_N raw * 10 ^ Z.to_N k)%N.
  - assert (Hc : Z.abs_N raw <> 0%N) by lia.
    destruct (DigitsFacts.ndigits_spec _ Hc) as (Hone & _).
    rewrite BigNumberFacts.make_pow10 by exact Hc.
    rewrite !BigNumberFacts.make_in_range
      by (try exact Hc;
          unfold BigNumber.leading, BigNumber.MIN_EXP, BigNumber.MAX_EXP in *;
          lia).
    destruct (BigNumberFacts.normal_shift (raw <? 0)%Z (Z.abs_N raw) 0
                (Z.of_N (Z.to_N k)) Hc)
      as (c' & e' & -> & ->).
    cbn [BigNumber.times]. f_equal. lia.
  - apply N2Z.inj.
    rewrite N2Z.inj_mul, N2Z.inj_pow, !N2Z.inj_abs_N, Z2N.id, Z.abs_mul by lia.
    change (Z.of_N 10) with 10%Z. rewrite (Z.abs_eq (10 ^ k)) by lia.
    reflexivity.
Qed.

(** X14.  A mint without supply is formatted as 0 whatever its decimals,
    and its market cap at any finite non-zero price is a zero of the sign
    of the price, not [NaN]. *)
Theorem zero_supply a r s :
  run (getTokenDetails coerce w a) = (Normal (Some r), s) ->
  totalSupplyRaw r = 0%Z ->
  totalSupply r = "0"
  /\ (forall neg m e,
        price r = JNumber (S754_finite neg m e) ->
        marketcCap r = JNumber (S754_zero neg)).
Proof.
  intros H. open_result H.
  cbn [totalSupplyRaw totalSupply price marketcCap result_of].
  intros Hs. rewrite Hs in *.
  destruct (ConvertFacts.mint_bounds mi) as ((Hd & _) & _).
  rewrite ConvertFacts.convertToDecimal_zero by exact Hd.
  split; [reflexivity|].
  intros neg m e Hp.
  rewrite (market_cap_formula coerce w _ _ _ _ _ _ E2), Hp.
  cbn [JS.defined]. rewrite multipliedBy_number.
  rewrite ConvertFacts.convertToDecimal_zero by exact Hd.
  destruct (BigNumberFacts.ofNumber_finite neg m e) as (c & x & -> & _).
  reflexivity.
Qed.

End Beyond.

(** ** Each of these on a concrete run *)

Lemma chain_fields_come_from_the_mint_witness :
  exists r s,
    run (getTokenDetails Sample.coerce Sample.json_down Sample.address)
    = (Normal (Some r), s)
    /\ address r = Sample.address
    /\ decimals r = 6%Z
    /\ totalSupplyRaw r = 1000000000000%Z
    /\ totalSupply r = "1,000,000"
    /\ mintAuthority r = Some "9xQeWvG816bUx9EPjHmaT23yvVM2ZWbrrpZb9PusVFin"
    /\ freezeAuthority r = None.
Proof.
  evaluate_run R.
  destruct (chain_fields_come_from_the_mint Sample.coerce Sample.json_down
              Sample.address _ _ R)
    as (mi & Hm & A & D & Raw & F & MA & FA).
  injection Hm as <-.
  eexists. eexists. split; [reflexivity|].
  repeat split; assumption.
Defined.

Lemma calls_in_order_witness :
  validPublicKey Sample.unprintable_price Sample.address = true
  /\ product_fails Sample.coerce Sample.unprintable_price Sample.address
     = true
  /\ trace (snd (run (getTokenDetails Sample.coerce Sample.unprintable_price
                        Sample.address)))
     = [RpcGetMint Sample.address;
        RpcFindByMint Sample.address;
        HttpGet "https://example.org/sol.json" None;
        HttpGet (API_ENDPOINT Sample.address) (Some HEADERS)].
Proof.
  split; [reflexivity|]. split; [reflexivity|].
  exact (proj2 (proj2 (calls_in_order Sample.coerce Sample.unprintable_price
                         Sample.address (Sample.mint 6 1000000000000)
                         eq_refl eq_refl))
           eq_refl).
Defined.

Lemma name_and_symbol_never_blank_witness :
  exists r s,
    run (getTokenDetails Sample.coerce Sample.no_metadata Sample.address)
    = (Normal (Some r), s)
    /\ JS.truthy (name r) = true /\ JS.truthy (symbol r) = true.
Proof.
  evaluate_run R.
  eexists. eexists. split; [reflexivity|].
  exact (name_and_symbol_never_blank Sample.coerce Sample.no_metadata
           Sample.address _ _ R).
Defined.

Lemma descriptive_fields_by_precedence_witness :
  exists r s,
    run (getTokenDetails Sample.coerce Sample.blank_onchain Sample.address)
    = (Normal (Some r), s)
    /\ name r = JString "Off-chain SOL"
    /\ symbol r = JString "XSOL"
    /\ imageURL r = JString "https://example.org/sol.png".
Proof.
  evaluate_run R.
  eexists. eexists. split; [reflexivity|].
  exact (descriptive_fields_by_precedence Sample.coerce Sample.blank_onchain
           Sample.address _ _ R).
Defined.

Lemma price_is_the_truthy_report_witness :
  exists r s,
    run (getTokenDetails Sample.coerce Sample.healthy Sample.address)
    = (Normal (Some r), s)
    /\ price r = Sample.num 25 (-1)
    /\ JS.truthy (price r) = true.
Proof.
  evaluate_run R.
  destruct (price_is_the_truthy_report Sample.coerce Sample.healthy
              Sample.address _ _ R)
    as (P & T & _).
  eexists. eexists. split; [reflexivity|].
  split; [exact P|]. apply T. discriminate.
Defined.

Lemma overview_fields_as_reported_witness :
  exists r s,
    run (getTokenDetails Sample.coerce Sample.healthy Sample.address)
    = (Normal (Some r), s)
    /\ liquidityUsd r = Sample.num 125 4
    /\ holders r = Sample.num 4321 0
    /\ unset (volume24h r).
Proof.
  evaluate_run R.
  eexists. eexists. split; [reflexivity|].
  exact (proj1 (overview_fields_as_reported Sample.coerce Sample.healthy
                  Sample.address _ _ R)
           eq_refl).
Defined.

Lemma market_fields_ignore_metadata_witness :
  metaplex_findByMint Sample.no_metadata Sample.address
  <> metaplex_findByMint Sample.healthy Sample.address
  /\ exists r s r' s',
       run (getTokenDetails Sample.coerce Sample.healthy Sample.address)
       = (Normal (Some r), s)
       /\ run (getTokenDetails Sample.coerce Sample.no_metadata Sample.address)
          = (Normal (Some r'), s')
       /\ price r' = price r
       /\ marketcCap r' = marketcCap r
       /\ liquidityUsd r' = liquidityUsd r.
Proof.
  split; [discriminate|].
  evaluate_run R.
  destruct (market_fields_ignore_metadata Sample.coerce Sample.healthy
              Sample.no_metadata Sample.address _ _
              eq_refl eq_refl (fun _ _ => eq_refl) R)
    as (r' & s' & R' & P & M & L & _).
  eexists. eexists. exists r', s'.
  split; [reflexivity|]. split; [exact R'|]. repeat split; assumption.
Defined.

Lemma descriptive_fields_ignore_market_witness :
  axios_get Sample.zero_price (API_ENDPOINT Sample.address) (Some HEADERS)
  <> axios_get Sample.healthy (API_ENDPOINT Sample.address) (Some HEADERS)
  /\ exists r s r' s',
       run (getTokenDetails Sample.coerce Sample.healthy Sample.address)
       = (Normal (Some r), s)
       /\ run (getTokenDetails Sample.coerce Sample.zero_price Sample.address)
          = (Normal (Some r'), s')
       /\ name r' = name r
       /\ symbol r' = symbol r
       /\ imageURL r' = imageURL r.
Proof.
  split; [vm_compute; discriminate|].
  evaluate_run R.
  destruct (descriptive_fields_ignore_market Sample.coerce Sample.healthy
              Sample.zero_price Sample.address _ _
              eq_refl eq_refl eq_refl (fun _ => eq_refl) R)
    as (r' & s' & R' & N & S & I).
  eexists. eexists. exists r', s'.
  split; [reflexivity|]. split; [exact R'|]. repeat split; assumption.
Defined.

Lemma main_reports_what_getTokenDetails_returns_witness :
  Sample.address <> ""
  /\ fst (run (main Sample.coerce Sample.mint_down (Some Sample.address)))
     = Normal NoDetails
  /\ trace (snd (run (main Sample.coerce Sample.mint_down
                        (Some Sample.address))))
     = [RpcGetMint Sample.address].
Proof.
  split; [discriminate|].
  exact (main_reports_what_getTokenDetails_returns Sample.coerce
           Sample.mint_down Sample.address ltac:(discriminate) eq_refl).
Defined.

Lemma trailing_zeros_cancel_witness :
  (6 + 3 <= BigNumber.MAX_EXP)%Z
  /\ (Digits.ndigits (Z.abs_N 1500) + 3 <= BigNumber.MAX_EXP + 1)%Z
  /\ convertToDecimal (1500 * 10 ^ 3) (6 + 3) = convertToDecimal 1500 6.
Proof.
  assert (Hd : (6 + 3 <= BigNumber.MAX_EXP)%Z) by (vm_compute; discriminate).
  assert (Hn : (Digits.ndigits (Z.abs_N 1500) + 3
                <= BigNumber.MAX_EXP + 1)%Z)
    by (vm_compute; discriminate).
  split; [exact Hd|]. split; [exact Hn|].
  exact (trailing_zeros_cancel 1500 6 3 ltac:(lia) ltac:(lia) Hd Hn).
Defined.

Lemma zero_supply_witness :
  exists r s,
    run (getTokenDetails Sample.coerce SampleEdge.unminted Sample.address)
    = (Normal (Some r), s)
    /\ decimals r = 9%Z
    /\ totalSupply r = "0"
    /\ marketcCap r = JNumber (S754_zero false).
Proof.
  evaluate_run R.
  destruct (zero_supply Sample.coerce SampleEdge.unminted Sample.address
              _ _ R eq_refl)
    as (T & M).
  eexists. eexists. split; [reflexivity|]. split; [reflexivity|].
  split; [exact T|]. exact (M _ _ _ eq_refl).
Defined.
